(** * The Graph API client of facebook_instagram_analytics

    A shallow embedding of [FacebookGraphAPI.make_request] and
    [FacebookGraphAPI.get_paginated_results]
    (src/facebook_instagram_analytics/api/facebook_api.py) together with the
    settings of config_py.py they read, and the properties of the retry loop
    and of the pagination loop.

    Python values are modelled by the inductive type [value]; a Python [str]
    is a Rocq [string], its case maps being the ASCII ones.  Dictionaries that
    the program mutates in place (the request parameters) live in a store and
    are passed by reference, as in Python.  The network, the clock and the
    store form the [World] that every operation threads through. *)

From stdpp Require Import gmap strings list fin_maps pretty.
From Stdlib Require Import ZArith Ascii Lia.

Open Scope Z_scope.

(** ** Python strings *)

Module PyStr.

Definition upper_char (c : ascii) : ascii :=
  let n := Ascii.N_of_ascii c in
  if ((97 <=? n) && (n <=? 122))%N then Ascii.ascii_of_N (n - 32) else c.

Definition lower_char (c : ascii) : ascii :=
  let n := Ascii.N_of_ascii c in
  if ((65 <=? n) && (n <=? 90))%N then Ascii.ascii_of_N (n + 32) else c.

(** [s.upper()] and [s.lower()]. *)
Fixpoint upper (s : string) : string :=
  match s with
  | EmptyString => EmptyString
  | String c s' => String (upper_char c) (upper s')
  end.

Fixpoint lower (s : string) : string :=
  match s with
  | EmptyString => EmptyString
  | String c s' => String (lower_char c) (lower s')
  end.

(** [pat in s] on two strings. *)
Fixpoint contains (pat s : string) : bool :=
  String.prefix pat s ||
  match s with
  | EmptyString => false
  | String _ s' => contains pat s'
  end.

(** [s.replace(old, new)] for a non-empty [old]: occurrences are replaced
    from the left and do not overlap.  [skip] counts the characters of a
    match that are still to be dropped. *)
Fixpoint replace_from (old new : string) (skip : nat) (s : string) : string :=
  match s with
  | EmptyString => EmptyString
  | String c s' =>
      match skip with
      | S k => replace_from old new k s'
      | O =>
          if String.prefix old s
          then new +:+ replace_from old new (Nat.pred (String.length old)) s'
          else String c (replace_from old new O s')
      end
  end.

Definition replace (old new s : string) : string := replace_from old new O s.

(** [s.split(sep)] for a separator of one character: the result is never
    empty, and [n] separators give [n + 1] fields. *)
Fixpoint split (sep : ascii) (s : string) : list string :=
  match s with
  | EmptyString => [EmptyString]
  | String c s' =>
      if Ascii.eqb c sep then EmptyString :: split sep s'
      else match split sep s' with
           | field :: fields => String c field :: fields
           | [] => [String c EmptyString]
           end
  end.

(** The characters of [s], as [for ch in s] yields them. *)
Fixpoint chars (s : string) : list string :=
  match s with
  | EmptyString => []
  | String c s' => String c EmptyString :: chars s'
  end.

End PyStr.

(** ** Python values

    What [json.loads] can produce, and what a parameter dictionary can hold.
    A float is carried by its printed form.  A dictionary is the list of its
    items in insertion order; the keys of a Python dictionary are distinct, so
    a lookup takes the first item with the key. *)

#[local] Set Warnings "-register-all".

Inductive value : Type :=
| VNone
| VBool (b : bool)
| VInt (n : Z)
| VFloat (printed : string)
| VStr (s : string)
| VList (elems : list value)
| VDict (items : list (string * value)).

Inductive exn : Type :=
| ValueError
| TypeError
| AttributeError
| KeyError.

Module Py.

Definition dquote : ascii := Ascii.ascii_of_nat 34.
Definition squote : ascii := Ascii.ascii_of_nat 39.
Definition backslash : ascii := Ascii.ascii_of_nat 92.

Definition hex_digit (n : N) : ascii :=
  if (n <? 10)%N then Ascii.ascii_of_N (48 + n) else Ascii.ascii_of_N (87 + n).

(** One character inside a string literal delimited by [quote]. *)
Definition escape_char (quote c : ascii) : string :=
  let n := Ascii.N_of_ascii c in
  if Ascii.eqb c backslash then String backslash (String backslash "")
  else if Ascii.eqb c quote then String backslash (String c "")
  else if (n =? 9)%N then String backslash "t"
  else if (n =? 10)%N then String backslash "n"
  else if (n =? 13)%N then String backslash "r"
  else if ((n <? 32) || (n =? 127))%N
       then String backslash (String "x" (String (hex_digit (n / 16)) (String (hex_digit (n mod 16)) "")))
  else String c "".

Fixpoint escape (quote : ascii) (s : string) : string :=
  match s with
  | EmptyString => EmptyString
  | String c s' => escape_char quote c +:+ escape quote s'
  end.

(** [repr(s)] of a string: single quotes, unless the string holds a single
    quote and no double quote. *)
Definition repr_str (s : string) : string :=
  let quote :=
    if PyStr.contains (String squote "") s && negb (PyStr.contains (String dquote "") s)
    then dquote else squote in
  String quote (escape quote s +:+ String quote "").

Fixpoint join (sep : string) (l : list string) : string :=
  match l with
  | [] => ""
  | [x] => x
  | x :: l' => x +:+ sep +:+ join sep l'
  end.

(** [repr(v)]. *)
Fixpoint repr (v : value) : string :=
  match v with
  | VNone => "None"
  | VBool true => "True"
  | VBool false => "False"
  | VInt n => pretty n
  | VFloat printed => printed
  | VStr s => repr_str s
  | VList elems => "[" +:+ join ", " (List.map repr elems) +:+ "]"
  | VDict items =>
      "{" +:+ join ", " (List.map (fun kv => repr_str (fst kv) +:+ ": " +:+ repr (snd kv)) items) +:+ "}"
  end.

(** [str(v)]. *)
Definition str (v : value) : string :=
  match v with
  | VStr s => s
  | _ => repr v
  end.

(** [bool(v)], the test of [if v:] and [not v]. *)
Definition truthy (v : value) : bool :=
  match v with
  | VNone => false
  | VBool b => b
  | VInt n => negb (Z.eqb n 0)
  | VFloat printed => negb (String.eqb printed "0.0" || String.eqb printed "-0.0")
  | VStr s => negb (String.eqb s "")
  | VList elems => match elems with [] => false | _ => true end
  | VDict items => match items with [] => false | _ => true end
  end.

(** [d.get(key)] on the items of a dictionary. *)
Fixpoint lookup (key : string) (items : list (string * value)) : option value :=
  match items with
  | [] => None
  | (k, v) :: items' => if String.eqb k key then Some v else lookup key items'
  end.

Definition is_str (key : string) (v : value) : bool :=
  match v with
  | VStr s => String.eqb s key
  | _ => false
  end.

(** [key in v] for a string [key]: key membership in a dictionary, element
    membership in a list, substring test in a string; anything else is not
    a container. *)
Definition contains (key : string) (v : value) : exn + bool :=
  match v with
  | VDict items => inr (bool_decide (is_Some (lookup key items)))
  | VList elems => inr (existsb (is_str key) elems)
  | VStr s => inr (PyStr.contains key s)
  | _ => inl TypeError
  end.

(** [v[key]] for a string [key]. *)
Definition getitem (v : value) (key : string) : exn + value :=
  match v with
  | VDict items =>
      match lookup key items with
      | Some x => inr x
      | None => inl KeyError
      end
  | _ => inl TypeError
  end.

(** [v.get(key, default)]: only a dictionary has the method. *)
Definition get (v : value) (key : string) (default : value) : exn + value :=
  match v with
  | VDict items =>
      match lookup key items with
      | Some x => inr x
      | None => inr default
      end
  | _ => inl AttributeError
  end.

(** [len(v)]. *)
Definition len (v : value) : exn + Z :=
  match v with
  | VList elems => inr (Z.of_nat (length elems))
  | VDict items => inr (Z.of_nat (length items))
  | VStr s => inr (Z.of_nat (String.length s))
  | _ => inl TypeError
  end.

(** The elements [list.extend(v)] appends. *)
Definition iterate (v : value) : exn + list value :=
  match v with
  | VList elems => inr elems
  | VDict items => inr (List.map (fun kv => VStr (fst kv)) items)
  | VStr s => inr (List.map VStr (PyStr.chars s))
  | _ => inl TypeError
  end.

End Py.

(** ** Settings (config_py.py)

    The module-level constants the client imports.  [default_config] holds
    the values they take when the environment sets none of the variables. *)

Record Config : Type := {
  FACEBOOK_ACCESS_TOKEN : option string;
  FACEBOOK_BASE_URL : string;
  REQUEST_TIMEOUT : Z;
  MAX_RETRIES : Z;
  RETRY_DELAY : Z
}.

Definition default_config : Config := {|
  FACEBOOK_ACCESS_TOKEN := None;
  FACEBOOK_BASE_URL := "https://graph.facebook.com/" +:+ "v18.0";
  REQUEST_TIMEOUT := 30;
  MAX_RETRIES := 3;
  RETRY_DELAY := 5
|}.

(** ** The world: network, clock and store *)

Inductive Verb : Type := GET | POST.

Abbreviation dict := (gmap string value).
Abbreviation loc := positive.

(** What [requests.get] / [requests.post] is called with; [payload] is the
    content of the parameter dictionary at the time of the call. *)
Record Request : Type := {
  verb : Verb;
  url : string;
  payload : dict;
  timeout : Z
}.

(** What the client reads of a [requests.Response]: [json] is the result of
    [response.json()], [None] when it raises [JSONDecodeError]. *)
Record Response : Type := {
  status_code : Z;
  text : string;
  json : option value
}.

(** What one call of [requests.get] / [requests.post] does: it returns a
    response or raises. *)
Inductive Reply : Type :=
| Responded (r : Response)
| TimedOut
| ConnectionFailed
| Failed.

(** The exceptions of a [try] block of the client. *)
Inductive error : Type :=
| Timeout
| ConnectionError
| JSONDecodeError
| RequestException
| Builtin (e : exn).

(** What the client does to the outside, in the order it does it. *)
Inductive Event : Type :=
| Sent (rq : Request)
| Slept (seconds : Z).

(** [trace]: the requests put on the wire and the calls of [time.sleep], oldest
    first.  [store]: the dictionaries, by reference. *)
Record World : Type := {
  trace : list Event;
  store : gmap loc dict
}.

Definition empty_world : World := {| trace := []; store := ∅ |}.

Fixpoint requests (t : list Event) : list Request :=
  match t with
  | [] => []
  | Sent rq :: t' => rq :: requests t'
  | Slept _ :: t' => requests t'
  end.

Fixpoint sleeps (t : list Event) : list Z :=
  match t with
  | [] => []
  | Sent _ :: t' => sleeps t'
  | Slept seconds :: t' => seconds :: sleeps t'
  end.

Definition sent (w : World) : list Request := requests (trace w).
Definition slept (w : World) : list Z := sleeps (trace w).

Definition record (e : Event) (w : World) : World :=
  {| trace := trace w ++ [e]; store := store w |}.

(** ** Computations: state, exceptions, and loops that may not end *)

Inductive Outcome (A : Type) : Type :=
| Return (a : A)
| Raise (e : error)
| Diverge.
Arguments Return {A} a.
Arguments Raise {A} e.
Arguments Diverge {A}.

Definition M (A : Type) : Type := World -> Outcome A * World.

Definition ret {A} (a : A) : M A := fun w => (Return a, w).
Definition raise {A} (e : error) : M A := fun w => (Raise e, w).
Definition diverge {A} : M A := fun w => (Diverge, w).

Definition bind {A B} (m : M A) (k : A -> M B) : M B :=
  fun w =>
    match m w with
    | (Return a, w') => k a w'
    | (Raise e, w') => (Raise e, w')
    | (Diverge, w') => (Diverge, w')
    end.

Declare Scope py_scope.
Delimit Scope py_scope with py.
Notation "x <- m ;; k" := (bind m (fun x => k))
  (at level 100, m at next level, right associativity) : py_scope.
Notation "m ;; k" := (bind m (fun _ => k))
  (at level 100, right associativity) : py_scope.
Open Scope py_scope.

(** Computations that only return or raise. *)
Definition and_then {A B} (r : exn + A) (k : A -> exn + B) : exn + B :=
  match r with
  | inr a => k a
  | inl e => inl e
  end.

Declare Scope pure_scope.
Delimit Scope pure_scope with pure.
Notation "x <- m ;; k" := (and_then m (fun x => k))
  (at level 100, m at next level, right associativity) : pure_scope.

(** A builtin that returns or raises, run as a computation. *)
Definition lift {A} (r : exn + A) : M A :=
  match r with
  | inr a => ret a
  | inl e => raise (Builtin e)
  end.

(** [try: m  except <handlers>], the handlers given as a function of the
    exception caught. *)
Definition try_except {A} (m : M A) (handler : error -> M A) : M A :=
  fun w =>
    match m w with
    | (Raise e, w') => handler e w'
    | r => r
    end.

(** [time.sleep(seconds)]: a negative length is a [ValueError]. *)
Definition sleep (seconds : Z) : M unit :=
  fun w =>
    if seconds <? 0 then (Raise (Builtin ValueError), w)
    else (Return tt, record (Slept seconds) w).

(** [{}]: a new dictionary. *)
Definition new_dict : M loc :=
  fun w =>
    let l := fresh (dom (store w)) in
    (Return l, {| trace := trace w; store := <[l := ∅]> (store w) |}).

(** [d[key] = v]. *)
Definition dict_set (d : loc) (key : string) (v : value) : M unit :=
  fun w =>
    (Return tt,
     {| trace := trace w; store := <[d := <[key := v]> (store w !!! d)]> (store w) |}).

Section Client.

(** The remote side: its reply to a request, given how many requests were
    sent before. *)
Variable server : nat -> Request -> Reply.

(** [requests.get(url, params=params, timeout=timeout)] and
    [requests.post(url, json=params, timeout=timeout)]. *)
Definition http (v : Verb) (u : string) (params : loc) (tmo : Z) : M Response :=
  fun w =>
    let rq := {| verb := v; url := u; payload := store w !!! params; timeout := tmo |} in
    let w' := record (Sent rq) w in
    match server (length (sent w)) rq with
    | Responded r => (Return r, w')
    | TimedOut => (Raise Timeout, w')
    | ConnectionFailed => (Raise ConnectionError, w')
    | Failed => (Raise RequestException, w')
    end.

(** [response.json()]. *)
Definition response_json (r : Response) : M value :=
  match json r with
  | Some v => ret v
  | None => raise JSONDecodeError
  end.

(** ** The client (api/facebook_api.py) *)

Record FacebookGraphAPI : Type := {
  access_token : string;
  base_url : string
}.

(** [FacebookGraphAPI.__init__]. *)
Definition init (cfg : Config) (token : option string) : exn + FacebookGraphAPI :=
  let chosen :=
    match token with
    | Some t => if String.eqb t "" then FACEBOOK_ACCESS_TOKEN cfg else Some t
    | None => FACEBOOK_ACCESS_TOKEN cfg
    end in
  match chosen with
  | Some t =>
      if String.eqb t "" then inl ValueError
      else inr {| access_token := t; base_url := FACEBOOK_BASE_URL cfg |}
  | None => inl ValueError
  end.

(** How one turn of the [while] loop of [make_request] ends. *)
Inductive Ctl : Type :=
| Continue (retries : Z)
| ReturnValue (v : value).

Section MakeRequest.

Variable self : FacebookGraphAPI.
Variable endpoint : string.
Variable params : loc.
Variable method : string.
Variables tmo max_retries retry_delay : Z.

(** Lines 93-114: what the [try] block does with a response. *)
Definition handle_response (response : Response) (retries : Z) : M Ctl :=
  if negb (status_code response =? 200) then
    error_info <-
      (if negb (String.eqb (text response) "") then response_json response
       else ret (VDict [("message", VStr "Unknown error")])) ;;
    _ <- lift (Py.get error_info "message" (VStr "Unknown error")) ;;
    if (status_code response =? 429)
       || PyStr.contains "rate limit" (PyStr.lower (Py.str error_info))
    then
      let wait_time := retry_delay * 2 ^ retries in
      sleep wait_time ;;
      ret (Continue (retries + 1))
    else ret (ReturnValue VNone)
  else
    result <- response_json response ;;
    ret (ReturnValue result).

(** Lines 127-135: after a timeout or a connection error. *)
Definition retry_logic (retries : Z) : M Ctl :=
  if retries <? max_retries then
    let wait_time := retry_delay * 2 ^ retries in
    sleep wait_time ;;
    ret (Continue (retries + 1))
  else ret (ReturnValue VNone).

(** Lines 83-135: one turn of the loop. *)
Definition attempt (retries : Z) : M Ctl :=
  let u := base_url self +:+ "/" +:+ endpoint in
  try_except
    (if String.eqb (PyStr.upper method) "GET" then
       response <- http GET u params tmo ;;
       handle_response response retries
     else if String.eqb (PyStr.upper method) "POST" then
       response <- http POST u params tmo ;;
       handle_response response retries
     else ret (ReturnValue VNone))
    (fun e =>
       match e with
       | Timeout => retry_logic retries
       | ConnectionError => retry_logic retries
       | JSONDecodeError => ret (ReturnValue VNone)
       | _ => ret (ReturnValue VNone)
       end).

(** Lines 81-137: [while retries <= max_retries].  Every turn that goes on
    adds one to [retries], so [fuel] bounds the turns; see
    [request_loop_fuel]. *)
Fixpoint request_loop (fuel : nat) (retries : Z) : M value :=
  if retries <=? max_retries then
    match fuel with
    | O => diverge
    | S fuel' =>
        c <- attempt retries ;;
        match c with
        | Continue retries' => request_loop fuel' retries'
        | ReturnValue v => ret v
        end
    end
  else ret VNone.

End MakeRequest.

(** [FacebookGraphAPI.make_request]; [params] is [None] or a reference to
    the caller's dictionary. *)
Definition make_request (self : FacebookGraphAPI) (endpoint : string)
    (params : option loc) (method : string) (tmo max_retries retry_delay : Z) : M value :=
  params <- (match params with
             | None => new_dict
             | Some p => ret p
             end) ;;
  dict_set params "access_token" (VStr (access_token self)) ;;
  request_loop self endpoint params method tmo max_retries retry_delay
    (Z.to_nat (max_retries + 1)) 0.

(** How one turn of the [while] loop of [get_paginated_results] ends: with
    [break], or with the cursor of the next page. *)
Inductive Turn : Type :=
| Break (all_results : list value)
| Again (all_results : list value) (next_page_url : value).

Section Pagination.

Variable cfg : Config.
Variable self : FacebookGraphAPI.
Variable results_key : string.

(** Lines 177-179: [for param in ...: key, value = param.split('=')]. *)
Fixpoint parse_params (fields : list string) (params : loc) : M unit :=
  match fields with
  | [] => ret tt
  | param :: fields' =>
      match PyStr.split "=" param with
      | [key; v] =>
          dict_set params key (VStr v) ;;
          parse_params fields' params
      | _ => raise (Builtin ValueError)
      end
  end.

(** Lines 168-179: the endpoint and the parameters of the next request. *)
Definition follow_cursor (next_page_url : value) (endpoint : string) (params : loc)
    : M (string * loc) :=
  if Py.truthy next_page_url then
    match next_page_url with
    | VStr u =>
        let relative_url := PyStr.replace (base_url self +:+ "/") "" u in
        match PyStr.split "?" relative_url with
        | endpoint' :: query :: _ =>
            params' <- new_dict ;;
            parse_params (PyStr.split "&" query) params' ;;
            ret (endpoint', params')
        | _ => ret (endpoint, params)
        end
    | _ => raise (Builtin AttributeError)
    end
  else ret (endpoint, params).

(** Lines 183-194: what the loop does with the response of a page, given
    the results gathered so far. *)
Definition digest (all_results : list value) (response : value) : exn + Turn :=
  (stop <- (if negb (Py.truthy response) then inr true
            else present <- Py.contains results_key response ;;
                 inr (negb present)) ;;
   if stop : bool then inr (Break all_results)
   else
     page <- Py.getitem response results_key ;;
     items <- Py.iterate page ;;
     let all_results := all_results ++ items in
     _ <- Py.len page ;;
     has_next <- (paged <- Py.contains "paging" response ;;
                  if paged : bool then
                    paging <- Py.getitem response "paging" ;;
                    Py.contains "next" paging
                  else inr false) ;;
     if has_next : bool then
       paging <- Py.getitem response "paging" ;;
       next <- Py.getitem paging "next" ;;
       inr (Again all_results next)
     else inr (Break all_results))%pure.

(** Lines 167-194: [while True]. *)
Fixpoint pagination_loop (fuel : nat) (endpoint : string) (params : loc)
    (all_results : list value) (next_page_url : value) : M (list value) :=
  match fuel with
  | O => diverge
  | S fuel' =>
      target <- follow_cursor next_page_url endpoint params ;;
      let endpoint := fst target in
      let params := snd target in
      response <- make_request self endpoint (Some params) "GET"
                    (REQUEST_TIMEOUT cfg) (MAX_RETRIES cfg) (RETRY_DELAY cfg) ;;
      turn <- lift (digest all_results response) ;;
      match turn with
      | Break all_results => ret all_results
      | Again all_results next => pagination_loop fuel' endpoint params all_results next
      end
  end.

(** [FacebookGraphAPI.get_paginated_results]. *)
Definition get_paginated_results (endpoint : string) (params : option loc)
    (limit : Z) (fuel : nat) : M (list value) :=
  params <- (match params with
             | None => new_dict
             | Some p => ret p
             end) ;;
  dict_set params "limit" (VInt limit) ;;
  pagination_loop fuel endpoint params [] VNone.

End Pagination.

End Client.

(** ** Reading the inputs and the outputs

    Pure views of the tests the code makes and of the worlds it leaves, used
    to state its properties. *)

(** The verb [make_request] selects from its [method] argument, if any. *)
Definition verb_of (method : string) : option Verb :=
  if String.eqb (PyStr.upper method) "GET" then Some GET
  else if String.eqb (PyStr.upper method) "POST" then Some POST
  else None.

(** Line 95: [error_info], or [None] when decoding the body raises. *)
Definition error_info_of (r : Response) : option value :=
  if negb (String.eqb (text r) "") then json r
  else Some (VDict [("message", VStr "Unknown error")]).

(** Line 102, right of [or]: the error body mentions a rate limit. *)
Definition indicates_rate_limit (r : Response) : bool :=
  match error_info_of r with
  | Some error_info => PyStr.contains "rate limit" (PyStr.lower (Py.str error_info))
  | None => false
  end.



(** The server's reply to its [n]-th request, whatever the request. *)
Definition answers (server : nat -> Request -> Reply) (n : nat) (reply : Reply) : Prop :=
  forall rq, server n rq = reply.

(** The world after a request went out, and after a sleep. *)
Definition after_request (rq : Request) (w : World) : World := record (Sent rq) w.

Definition after_sleep (seconds : Z) (w : World) : World := record (Slept seconds) w.

(** The request [make_request] sends in world [w]. *)
Definition request_of (self : FacebookGraphAPI) (endpoint : string) (params : loc)
    (v : Verb) (tmo : Z) (w : World) : Request :=
  {| verb := v; url := base_url self +:+ "/" +:+ endpoint;
     payload := store w !!! params; timeout := tmo |}.

(** The handlers of the [try] block of [attempt]. *)
Definition handlers (max_retries retry_delay retries : Z) (e : error) : M Ctl :=
  match e with
  | Timeout => retry_logic max_retries retry_delay retries
  | ConnectionError => retry_logic max_retries retry_delay retries
  | JSONDecodeError => ret (ReturnValue VNone)
  | _ => ret (ReturnValue VNone)
  end.

(** Lines 72-76: the dictionary the request is built from, and the world once
    the access token is in it. *)
Definition enter (self : FacebookGraphAPI) (params : option loc) (w : World) : loc * World :=
  let pw :=
    match params with
    | None =>
        let l := fresh (dom (store w)) in
        (l, {| trace := trace w; store := <[l := ∅]> (store w) |})
    | Some p => (p, w)
    end in
  (fst pw,
   {| trace := trace (snd pw);
      store := <[fst pw := <["access_token" := VStr (access_token self)]> (store (snd pw) !!! fst pw)]>
                 (store (snd pw)) |}).

(** The trace of [n] retries after transient failures, the first one being
    retry number [i]. *)
Fixpoint backoff_trace (rq : Request) (retry_delay i : Z) (n : nat) : list Event :=
  match n with
  | O => []
  | S n' => Slept (retry_delay * 2 ^ i) :: Sent rq :: backoff_trace rq retry_delay (i + 1) n'
  end.



(** The record array of a page: the list under the results key. *)
Definition page_records (results_key : string) (page : value) : option (list value) :=
  match page with
  | VDict items =>
      match Py.lookup results_key items with
      | Some (VList records) => Some records
      | _ => None
      end
  | _ => None
  end.

Definition records_of (results_key : string) (page : value) : list value :=
  default [] (page_records results_key page).

(** The pagination metadata of a page is absent or a JSON object. *)
Definition paging_ok (page : value) : bool :=
  match page with
  | VDict items =>
      match Py.lookup "paging" items with
      | None => true
      | Some (VDict _) => true
      | Some _ => false
      end
  | _ => false
  end.

(** The next cursor in the pagination metadata of a page, if any. *)
Definition next_cursor (page : value) : option value :=
  match page with
  | VDict items =>
      match Py.lookup "paging" items with
      | Some (VDict paging) => Py.lookup "next" paging
      | _ => None
      end
  | _ => None
  end.

(** Every [key=value] field of a query string has exactly one [=]. *)
Definition query_ok (query : string) : bool :=
  forallb (fun param => Nat.eqb (length (PyStr.split "=" param)) 2) (PyStr.split "&" query).

(** A cursor the loop can follow: a false value (the request is repeated as
    it is), or a URL without a query string, or with one that [query_ok]
    accepts. *)
Definition usable_cursor (self : FacebookGraphAPI) (cursor : value) : bool :=
  if Py.truthy cursor then
    match cursor with
    | VStr u =>
        match PyStr.split "?" (PyStr.replace (base_url self +:+ "/") "" u) with
        | _ :: query :: _ => query_ok query
        | _ => true
        end
    | _ => false
    end
  else true.

(** A sequence of pages as a paginated listing serves them: each holds a
    record array, each but the last a usable next cursor, the last none. *)
Fixpoint chain_ok (self : FacebookGraphAPI) (results_key : string) (pages : list value) : bool :=
  match pages with
  | [] => false
  | page :: rest =>
      bool_decide (is_Some (page_records results_key page))
      && paging_ok page
      && match rest with
         | [] => bool_decide (next_cursor page = None)
         | _ :: _ =>
             match next_cursor page with
             | Some cursor => usable_cursor self cursor && chain_ok self results_key rest
             | None => false
             end
         end
  end.

(** The server answers its [n]-th request with status 200 and the page. *)
Definition serves (server : nat -> Request -> Reply) (n : nat) (page : value) : Prop :=
  exists r, answers server n (Responded r) /\ status_code r = 200 /\ json r = Some page.

(** Lines 158-161: the dictionary of the first request, and the world once
    the page size is in it. *)
Definition enter_pages (params : option loc) (limit : Z) (w : World) : loc * World :=
  let pw :=
    match params with
    | None =>
        let l := fresh (dom (store w)) in
        (l, {| trace := trace w; store := <[l := ∅]> (store w) |})
    | Some p => (p, w)
    end in
  (fst pw,
   {| trace := trace (snd pw);
      store := <[fst pw := <["limit" := VInt limit]> (store (snd pw) !!! fst pw)]> (store (snd pw)) |}).

(** ** Sample inputs

    A client, responses, servers and worlds to run the code on. *)

(** A client on the default base URL. *)
Definition example_client : FacebookGraphAPI :=
  {| access_token := "EAAB"; base_url := FACEBOOK_BASE_URL default_config |}.


Definition html_200 : Response :=
  {| status_code := 200; text := "<html>Service Unavailable</html>"; json := None |}.

Definition empty_429 : Response :=
  {| status_code := 429; text := ""; json := None |}.

Definition throttled : Response :=
  {| status_code := 400;
     text := "{'error': {'message': '(#4) Application request limit reached: rate limit', 'code': 4}}";
     json := Some (VDict [("error",
               VDict [("message", VStr "(#4) Application request limit reached: rate limit");
                      ("code", VInt 4)])]) |}.

Definition not_found : Response :=
  {| status_code := 404;
     text := "{'error': {'message': 'Unsupported get request.', 'code': 100}}";
     json := Some (VDict [("error",
               VDict [("message", VStr "Unsupported get request."); ("code", VInt 100)])]) |}.

Definition ok_response (body : string) (v : value) : Response :=
  {| status_code := 200; text := body; json := Some v |}.

Definition rate_limited_twice (n : nat) (rq : Request) : Reply :=
  match n with
  | 0%nat => Responded empty_429
  | 1%nat => Responded throttled
  | _ => Responded (ok_response "{'id': '1'}" (VDict [("id", VStr "1")]))
  end.

Definition accounts_page_1 : value :=
  VDict [("data", VList [VDict [("id", VStr "1")]]);
         ("paging", VDict [("next", VStr "https://graph.facebook.com/v18.0/me/accounts?after=X")])].

Definition accounts_page_2 : value :=
  VDict [("data", VList [VDict [("id", VStr "2")]])].

Definition accounts_server (n : nat) (rq : Request) : Reply :=
  match n with
  | 0%nat => Responded (ok_response "{'data': [{'id': '1'}], 'paging': {...}}" accounts_page_1)
  | 1%nat => Responded (ok_response "{'data': [{'id': '2'}]}" accounts_page_2)
  | _ => ConnectionFailed
  end.

Definition truncating_server (n : nat) (rq : Request) : Reply :=
  match n with
  | 0%nat => Responded (ok_response "{'data': [{'id': '1'}], 'paging': {...}}" accounts_page_1)
  | _ => Failed
  end.

Definition caller_world : World :=
  {| trace := []; store := {[ 1%positive := {[ "fields" := VStr "id,name" ]} ]} |}.

Definition equals_cursor_page : value :=
  VDict [("data", VList [VDict [("id", VStr "1")]]);
         ("paging",
          VDict [("next", VStr "https://graph.facebook.com/v18.0/me/accounts?limit=100&after=QVFIUg==")])].

Definition equals_cursor_server (n : nat) (rq : Request) : Reply :=
  Responded (ok_response "{'data': [{'id': '1'}], 'paging': {...}}" equals_cursor_page).

Definition tokened_world : World :=
  {| trace := []; store := {[ 1%positive := {[ "access_token" := VStr "caller-token" ]} ]} |}.

(** ** Further views of [make_request] *)


(** The first [n] delays of the backoff: [retry_delay * 2 ^ i] for
    [i = 0 .. n - 1]. *)
Definition backoff_delays (retry_delay : Z) (n : nat) : list Z :=
  List.map (fun i => retry_delay * 2 ^ Z.of_nat i) (seq 0 n).


(** ** Further views of [get_paginated_results] *)

(** Lines 176-179 as a function: the dictionary the fields of a query string
    give, written into [d] from the left, a later field replacing an earlier
    one with the same key. *)
Definition query_dict (fields : list string) (d : dict) : dict :=
  fold_left
    (fun d param =>
       match PyStr.split "=" param with
       | [key; v] => <[key := VStr v]> d
       | _ => d
       end)
    fields d.

(** An exception of Python itself, as opposed to one of the network. *)
Definition is_builtin (e : error) : bool :=
  match e with
  | Builtin _ => true
  | _ => false
  end.

(** A page that holds a record array and a usable cursor to a next page. *)
Definition page_with_cursor (self : FacebookGraphAPI) (results_key : string) (page : value) : bool :=
  bool_decide (is_Some (page_records results_key page))
  && paging_ok page
  && match next_cursor page with
     | Some cursor => usable_cursor self cursor
     | None => false
     end.

(** A page whose cursor has no query string: following it repeats the
    request. *)
Definition looping_page : value :=
  VDict [("data", VList [VDict [("id", VStr "1")]]);
         ("paging", VDict [("next", VStr "https://graph.facebook.com/v18.0/me/accounts")])].

(** ** Accounts (models/models_account.py)

    The fields of an account hold whatever the API returned under the key
    (the callers fill them with [d.get(key)]), so they are [value]s.
    [class_of] is the class of the object, which [isinstance] tests. *)

Inductive AccountClass : Type :=
| SocialMediaAccountClass
| FacebookPageClass
| InstagramAccountClass
| AdAccountClass.

Module Account.

Record SocialMediaAccount : Type := {
  class_of : AccountClass;
  id : value;
  name : value;
  account_type : string;
  category : value;
  additional_data : list (string * value)
}.

(** [d[key] = v] on the items of a dictionary: the value of an existing key
    is replaced where it is, a new key goes to the end. *)
Fixpoint put (items : list (string * value)) (key : string) (v : value) : list (string * value) :=
  match items with
  | [] => [(key, v)]
  | (k, x) :: items' =>
      if String.eqb k key then (k, v) :: items' else (k, x) :: put items' key v
  end.

(** [SocialMediaAccount.to_dict]: the four fields, then [**additional_data]. *)
Definition to_dict (a : SocialMediaAccount) : list (string * value) :=
  fold_left (fun items kv => put items (fst kv) (snd kv)) (additional_data a)
    [("id", id a); ("name", name a); ("account_type", VStr (account_type a));
     ("category", category a)].

(** [FacebookPage(id, name, category, **kwargs)]. *)
Definition FacebookPage (i n c : value) (kwargs : list (string * value)) : SocialMediaAccount :=
  {| class_of := FacebookPageClass; id := i; name := n; account_type := "Facebook Page";
     category := c; additional_data := kwargs |}.

(** [InstagramAccount(id, username, category, **kwargs)]. *)
Definition InstagramAccount (i username c : value) (kwargs : list (string * value))
    : SocialMediaAccount :=
  {| class_of := InstagramAccountClass; id := i; name := username; account_type := "Instagram";
     category := if Py.truthy c then c else VStr "Instagram Business Account";
     additional_data := kwargs |}.

(** [AdAccount(id, name, **kwargs)]. *)
Definition AdAccount (i n : value) (kwargs : list (string * value)) : SocialMediaAccount :=
  {| class_of := AdAccountClass; id := i; name := n; account_type := "Ad Account";
     category := VStr "Facebook Ads"; additional_data := kwargs |}.

Record AccountCollection : Type := {
  facebook_pages : list SocialMediaAccount;
  instagram_accounts : list SocialMediaAccount;
  ad_accounts : list SocialMediaAccount
}.

(** [AccountCollection()]. *)
Definition empty : AccountCollection :=
  {| facebook_pages := []; instagram_accounts := []; ad_accounts := [] |}.

(** [AccountCollection.add_account]; the collection is returned as it is
    after the call. *)
Definition add_account (c : AccountCollection) (account : SocialMediaAccount)
    : exn + AccountCollection :=
  match class_of account with
  | FacebookPageClass =>
      inr {| facebook_pages := facebook_pages c ++ [account];
             instagram_accounts := instagram_accounts c; ad_accounts := ad_accounts c |}
  | InstagramAccountClass =>
      inr {| facebook_pages := facebook_pages c;
             instagram_accounts := instagram_accounts c ++ [account];
             ad_accounts := ad_accounts c |}
  | AdAccountClass =>
      inr {| facebook_pages := facebook_pages c;
             instagram_accounts := instagram_accounts c;
             ad_accounts := ad_accounts c ++ [account] |}
  | SocialMediaAccountClass => inl ValueError
  end.

(** [AccountCollection.get_all_accounts]. *)
Definition get_all_accounts (c : AccountCollection) : list SocialMediaAccount :=
  facebook_pages c ++ instagram_accounts c ++ ad_accounts c.

(** The loop of [find_by_id]: the first account whose [id] equals the string
    [account_id]. *)
Fixpoint first_with_id (account_id : string) (accounts : list SocialMediaAccount)
    : option SocialMediaAccount :=
  match accounts with
  | [] => None
  | account :: accounts' =>
      if Py.is_str account_id (id account) then Some account
      else first_with_id account_id accounts'
  end.

(** [AccountCollection.find_by_id]. *)
Definition find_by_id (c : AccountCollection) (account_id : string) : option SocialMediaAccount :=
  first_with_id account_id (get_all_accounts c).

(** [AccountCollection.to_list_of_dicts]. *)
Definition to_list_of_dicts (c : AccountCollection) : list (list (string * value)) :=
  List.map to_dict (get_all_accounts c).

(** [add_account] for each account of a list, from the left. *)
Fixpoint add_accounts (c : AccountCollection) (accounts : list SocialMediaAccount)
    : exn + AccountCollection :=
  match accounts with
  | [] => inr c
  | account :: accounts' =>
      match add_account c account with
      | inr c' => add_accounts c' accounts'
      | inl e => inl e
      end
  end.

Definition has_class (k : AccountClass) (a : SocialMediaAccount) : bool :=
  match k, class_of a with
  | SocialMediaAccountClass, SocialMediaAccountClass => true
  | FacebookPageClass, FacebookPageClass => true
  | InstagramAccountClass, InstagramAccountClass => true
  | AdAccountClass, AdAccountClass => true
  | _, _ => false
  end.

End Account.

(** ** The analytics service (services/analytics_service.py) *)

(** [response and 'data' in response]. *)
Definition has_data (response : value) : exn + bool :=
  if Py.truthy response then Py.contains "data" response else inr false.

(** Lines 70-76: the Instagram accounts of a page. *)
Fixpoint add_instagram_accounts (elems : list value) (accounts : Account.AccountCollection)
    : exn + Account.AccountCollection :=
  match elems with
  | [] => inr accounts
  | insta_data :: elems' =>
      (i <- Py.get insta_data "id" VNone ;;
       username <- Py.get insta_data "username" (VStr "Unknown") ;;
       let ig_account := Account.InstagramAccount i username VNone [] in
       accounts <- Account.add_account accounts ig_account ;;
       add_instagram_accounts elems' accounts)%pure
  end.

(** Lines 82-88: the ad accounts. *)
Fixpoint add_ad_accounts (elems : list value) (accounts : Account.AccountCollection)
    : exn + Account.AccountCollection :=
  match elems with
  | [] => inr accounts
  | ad_account_data :: elems' =>
      (i <- Py.get ad_account_data "id" VNone ;;
       i' <- Py.get ad_account_data "id" VNone ;;
       n <- Py.get ad_account_data "name" (VStr ("Ad Account " +:+ Py.str i')) ;;
       let ad_account := Account.AdAccount i n [] in
       accounts <- Account.add_account accounts ad_account ;;
       add_ad_accounts elems' accounts)%pure
  end.

(** [for x in response.get('data', [])]: the elements the loop runs over. *)
Definition data_of (response : value) : exn + list value :=
  (data <- Py.get response "data" (VList []) ;;
   Py.iterate data)%pure.

(** The page of lines 57-62. *)
Definition page_of (i n c token : value) : Account.SocialMediaAccount :=
  Account.FacebookPage i n c [("access_token", token)].

Section Service.

Variable server : nat -> Request -> Reply.
Variable cfg : Config.

(** [AnalyticsService.__init__]: the service is its API client. *)
Definition new_service (token : option string) : exn + FacebookGraphAPI := init cfg token.

Variable api : FacebookGraphAPI.

(** [self.api.make_request(endpoint)], every optional argument left out. *)
Definition request (endpoint : string) : M value :=
  make_request server api endpoint None "GET"
    (REQUEST_TIMEOUT cfg) (MAX_RETRIES cfg) (RETRY_DELAY cfg).

(** Lines 56-76: the pages, and for each page its Instagram accounts. *)
Fixpoint add_pages (elems : list value) (accounts : Account.AccountCollection)
    : M Account.AccountCollection :=
  match elems with
  | [] => ret accounts
  | account_data :: elems' =>
      i <- lift (Py.get account_data "id" VNone) ;;
      n <- lift (Py.get account_data "name" VNone) ;;
      c <- lift (Py.get account_data "category" VNone) ;;
      token <- lift (Py.get account_data "access_token" VNone) ;;
      let fb_page := page_of i n c token in
      accounts <- lift (Account.add_account accounts fb_page) ;;
      insta_response <- request (Py.str (Account.id fb_page) +:+ "/instagram_accounts") ;;
      present <- lift (has_data insta_response) ;;
      accounts <- (if present : bool then
                     insta <- lift (data_of insta_response) ;;
                     lift (add_instagram_accounts insta accounts)
                   else ret accounts) ;;
      add_pages elems' accounts
  end.

(** [AnalyticsService.get_connected_accounts]. *)
Definition get_connected_accounts : M Account.AccountCollection :=
  let accounts := Account.empty in
  user_response <- request "me/accounts" ;;
  present <- lift (has_data user_response) ;;
  if negb present then ret accounts
  else
    pages <- lift (data_of user_response) ;;
    accounts <- add_pages pages accounts ;;
    ad_accounts_response <- request "me/adaccounts" ;;
    present <- lift (has_data ad_accounts_response) ;;
    if present : bool then
      ads <- lift (data_of ad_accounts_response) ;;
      lift (add_ad_accounts ads accounts)
    else ret accounts.

End Service.

(** A user with one page, one Instagram account on it and one ad account. *)
Definition one_page_server (n : nat) (rq : Request) : Reply :=
  match n with
  | 0%nat =>
      Responded (ok_response "{'data': [{'id': '7', 'name': 'Shop', 'access_token': 'PT'}], ...}"
        (VDict [("data", VList [VDict [("id", VStr "7"); ("name", VStr "Shop");
                                       ("access_token", VStr "PT")]]);
                ("paging", VDict [("next", VStr "https://graph.facebook.com/v18.0/me/accounts?after=X")])]))
  | 1%nat =>
      Responded (ok_response "{'data': [{'id': '9', 'username': 'shop'}]}"
        (VDict [("data", VList [VDict [("id", VStr "9"); ("username", VStr "shop")]])]))
  | _ =>
      Responded (ok_response "{'data': [{'id': 'act_1'}]}"
        (VDict [("data", VList [VDict [("id", VStr "act_1")]])]))
  end.

(** [d.get(key)] where [d] is a JSON object, [None] elsewhere. *)
Definition field (d : value) (key : string) : value :=
  match Py.get d key VNone with
  | inr x => x
  | inl _ => VNone
  end.

(** The page lines 57-62 make of an element of the [data] array. *)
Definition page_from (account_data : value) : Account.SocialMediaAccount :=
  page_of (field account_data "id") (field account_data "name") (field account_data "category")
    (field account_data "access_token").

(** Lines 69-76 without the request: the collection with the Instagram
    accounts of a response added. *)
Definition with_instagram (accounts : Account.AccountCollection) (insta_response : value)
    : exn + Account.AccountCollection :=
  (present <- has_data insta_response ;;
   if present : bool then
     insta <- data_of insta_response ;;
     add_instagram_accounts insta accounts
   else inr accounts)%pure.

(** Lines 81-88 without the request: the collection with the ad accounts of
    a response added. *)
Definition with_ads (accounts : Account.AccountCollection) (ad_accounts_response : value)
    : exn + Account.AccountCollection :=
  (present <- has_data ad_accounts_response ;;
   if present : bool then
     ads <- data_of ad_accounts_response ;;
     add_ad_accounts ads accounts
   else inr accounts)%pure.

(** The URL of the request for the Instagram accounts of a page. *)
Definition instagram_url (api : FacebookGraphAPI) (account_data : value) : string :=
  base_url api +:+ "/" +:+ (Py.str (field account_data "id") +:+ "/instagram_accounts").

(** Every reply of the server has status 200 and a body that decodes. *)
Definition always_ok (server : nat -> Request -> Reply) : Prop :=
  forall n rq, exists r payload,
    server n rq = Responded r /\ status_code r = 200 /\ json r = Some payload.

(** ** Consolidated metrics (models/models_insights.py, lines 205-254)

    The numbers are the [int]s of the signature of [add_account_data]; the
    two dictionaries of totals have the four keys they are made with. *)

Module Consolidated.

Record Totals : Type := {
  views : Z;
  reach : Z;
  likes : Z;
  follows : Z
}.

(** An element of [accounts]: the dictionary of lines 228-236. *)
Record AccountData : Type := {
  id : value;
  name : value;
  type : string;
  numbers : Totals
}.

Record ConsolidatedMetrics : Type := {
  facebook : Totals;
  instagram : Totals;
  accounts : list AccountData
}.

Definition zero : Totals := {| views := 0; reach := 0; likes := 0; follows := 0 |}.

(** [ConsolidatedMetrics()]. *)
Definition empty : ConsolidatedMetrics :=
  {| facebook := zero; instagram := zero; accounts := [] |}.

(** Lines 241-244: [metrics[key] += value] for the four keys. *)
Definition plus (metrics x : Totals) : Totals :=
  {| views := views metrics + views x; reach := reach metrics + reach x;
     likes := likes metrics + likes x; follows := follows metrics + follows x |}.

(** [ConsolidatedMetrics.add_account_data]. *)
Definition add_account_data (m : ConsolidatedMetrics) (account_id account_name : value)
    (account_type : string) (v r l f : Z) : ConsolidatedMetrics :=
  let account_data :=
    {| id := account_id; name := account_name; type := account_type;
       numbers := {| views := v; reach := r; likes := l; follows := f |} |} in
  if String.eqb account_type "Facebook Page"
  then {| facebook := plus (facebook m) (numbers account_data); instagram := instagram m;
          accounts := accounts m ++ [account_data] |}
  else {| facebook := facebook m; instagram := plus (instagram m) (numbers account_data);
          accounts := accounts m ++ [account_data] |}.

(** The sum of the numbers of the accounts that [keep] keeps. *)
Definition sum_where (keep : AccountData -> bool) (l : list AccountData) : Totals :=
  fold_left (fun t a => if keep a then plus t (numbers a) else t) l zero.

Definition is_page (a : AccountData) : bool := String.eqb (type a) "Facebook Page".

(** The totals agree with the list of accounts. *)
Definition balanced (m : ConsolidatedMetrics) : Prop :=
  facebook m = sum_where is_page (accounts m)
  /\ instagram m = sum_where (fun a => negb (is_page a)) (accounts m).

End Consolidated.

(** A reply after which [make_request] returns [None] without a retry: an
    exception of the request other than a timeout or a connection error, a
    response other than 200 that is no rate-limit error, or a body that does
    not decode where the code decodes it. *)
Definition gives_up (reply : Reply) : bool :=
  match reply with
  | Failed => true
  | Responded r =>
      (negb (status_code r =? 200) && negb (status_code r =? 429)
       && negb (indicates_rate_limit r))
      || (match json r with None => true | Some _ => false end
          && ((status_code r =? 200) || negb (String.eqb (text r) "")))
  | _ => false
  end.

(** * Properties *)

(** ** The Python builtins on examples *)

Example upper_get : PyStr.upper "get" = "GET".
Proof. reflexivity. Qed.

Example replace_base :
  PyStr.replace "https://graph.facebook.com/v18.0/" ""
    "https://graph.facebook.com/v18.0/me/accounts?after=X" = "me/accounts?after=X".
Proof. reflexivity. Qed.

Example split_query : PyStr.split "&" "limit=100&after=X" = ["limit=100"; "after=X"].
Proof. reflexivity. Qed.

Example split_empty : PyStr.split "=" "" = [""].
Proof. reflexivity. Qed.

Example repr_error_body :
  Py.str (VDict [("error", VDict [("message", VStr "Rate limit reached"); ("code", VInt 4)])])
  = "{'error': {'message': 'Rate limit reached', 'code': 4}}".
Proof. vm_compute. reflexivity. Qed.

Example repr_carriage_return :
  Py.repr (VStr (String (Ascii.ascii_of_nat 13) "ate limit")) = String Py.squote (String Py.backslash "rate limit'").
Proof. vm_compute. reflexivity. Qed.

Example repr_escape_control :
  Py.repr (VStr (String (Ascii.ascii_of_nat 27) "[0m")) = String Py.squote (String Py.backslash "x1b[0m'").
Proof. vm_compute. reflexivity. Qed.

(** ** One turn of the retry loop *)

Section AttemptFacts.

Variable server : nat -> Request -> Reply.
Variable self : FacebookGraphAPI.
Variable endpoint : string.
Variable params : loc.
Variable method : string.
Variables tmo max_retries retry_delay : Z.

Local Abbreviation attempt' := (attempt server self endpoint params method tmo max_retries retry_delay).
Local Abbreviation loop' := (request_loop server self endpoint params method tmo max_retries retry_delay).

Lemma attempt_unsupported retries w :
  verb_of method = None ->
  attempt' retries w = (Return (ReturnValue VNone), w).
Proof.
  unfold verb_of, attempt, try_except. intros Hm.
  destruct (String.eqb (PyStr.upper method) "GET"); [discriminate|].
  destruct (String.eqb (PyStr.upper method) "POST"); [discriminate|].
  reflexivity.
Qed.

Lemma attempt_supported v retries w :
  verb_of method = Some v ->
  let rq := request_of self endpoint params v tmo w in
  attempt' retries w =
    match server (length (sent w)) rq with
    | Responded r =>
        try_except (handle_response retry_delay r retries) (handlers max_retries retry_delay retries) (after_request rq w)
    | TimedOut => retry_logic max_retries retry_delay retries (after_request rq w)
    | ConnectionFailed => retry_logic max_retries retry_delay retries (after_request rq w)
    | Failed => (Return (ReturnValue VNone), after_request rq w)
    end.
Proof.
  unfold verb_of, attempt, try_except, request_of, after_request. intros Hm.
  destruct (String.eqb (PyStr.upper method) "GET").
  - injection Hm as <-. unfold bind, http.
    destruct (server _ _); reflexivity.
  - destruct (String.eqb (PyStr.upper method) "POST"); [|discriminate].
    injection Hm as <-. unfold bind, http.
    destruct (server _ _); reflexivity.
Qed.

Lemma wait_time_nonneg retries : 0 <= retry_delay -> 0 <= retry_delay * 2 ^ retries.
Proof.
  intros H. apply Z.mul_nonneg_nonneg; [assumption|].
  apply Z.pow_nonneg. lia.
Qed.





(** A body that does not decode ends the call, unless it is the empty body
    of a response other than 200, which is not decoded. *)
Lemma handle_malformed r retries w :
  json r = None -> status_code r = 200 \/ text r <> "" ->
  try_except (handle_response retry_delay r retries) (handlers max_retries retry_delay retries) w
  = (Return (ReturnValue VNone), w).
Proof.
  intros Hj Hc. unfold try_except, handle_response, bind, response_json. rewrite Hj.
  destruct (Z.eqb_spec (status_code r) 200) as [E|E]; simpl; [reflexivity|].
  destruct Hc as [Hc|Hc]; [contradiction|].
  destruct (String.eqb_spec (text r) ""); [contradiction|]. reflexivity.
Qed.

(** A response other than 200 that neither has status 429 nor mentions a
    rate limit ends the call. *)
Lemma handle_permanent r retries w :
  status_code r <> 200 -> status_code r <> 429 -> indicates_rate_limit r = false ->
  try_except (handle_response retry_delay r retries) (handlers max_retries retry_delay retries) w
  = (Return (ReturnValue VNone), w).
Proof.
  unfold indicates_rate_limit, error_info_of.
  intros H200 H429 Hlim. unfold try_except, handle_response, bind, response_json.
  destruct (Z.eqb_spec (status_code r) 200); [contradiction|].
  destruct (Z.eqb_spec (status_code r) 429); [contradiction|].
  destruct (String.eqb (text r) ""); cbv beta iota delta [negb orb] in Hlim |- *.
  - unfold ret, lift, Py.get.
    destruct (Py.lookup "message" _); unfold ret; rewrite Hlim; reflexivity.
  - destruct (json r) as [info|]; [|reflexivity].
    unfold ret, lift, Py.get.
    destruct info; try reflexivity.
    destruct (Py.lookup "message" items); unfold ret; rewrite Hlim; reflexivity.
Qed.

(** Status 200 with a body that decodes: the decoded body is returned. *)
Lemma handle_success r v retries w :
  status_code r = 200 -> json r = Some v ->
  try_except (handle_response retry_delay r retries) (handlers max_retries retry_delay retries) w
  = (Return (ReturnValue v), w).
Proof.
  intros Hs Hj. unfold try_except, handle_response, bind, response_json.
  rewrite Hs, Hj. reflexivity.
Qed.

End AttemptFacts.

(** ** The retry loop as a whole *)

Lemma requests_app t1 t2 : requests (t1 ++ t2) = requests t1 ++ requests t2.
Proof.
  induction t1 as [|[rq|s] t1 IH]; simpl; [reflexivity| |assumption].
  now rewrite IH.
Qed.

Lemma sleeps_app t1 t2 : sleeps (t1 ++ t2) = sleeps t1 ++ sleeps t2.
Proof.
  induction t1 as [|[rq|s] t1 IH]; simpl; [reflexivity|assumption|].
  now rewrite IH.
Qed.


Lemma sent_after_request rq w : sent (after_request rq w) = sent w ++ [rq].
Proof. unfold sent, after_request, record. simpl. apply requests_app. Qed.



Lemma sleeps_backoff rq d i n :
  sleeps (backoff_trace rq d i n) = List.map (fun k => d * 2 ^ (i + Z.of_nat k)) (seq 0 n).
Proof.
  revert i. induction n as [|n IH]; intros i; [reflexivity|].
  cbn [backoff_trace sleeps seq List.map]. rewrite IH. f_equal.
  - f_equal. f_equal. lia.
  - rewrite <- seq_shift, List.map_map. apply List.map_ext. intros k. f_equal. f_equal. lia.
Qed.

Section LoopFacts.

Variable server : nat -> Request -> Reply.
Variable self : FacebookGraphAPI.
Variable endpoint : string.
Variable params : loc.
Variable method : string.
Variables tmo max_retries retry_delay : Z.

Local Abbreviation attempt' := (attempt server self endpoint params method tmo max_retries retry_delay).
Local Abbreviation loop' := (request_loop server self endpoint params method tmo max_retries retry_delay).

Lemma make_request_enter (p : option loc) w :
  make_request server self endpoint p method tmo max_retries retry_delay w
  = request_loop server self endpoint (fst (enter self p w)) method tmo max_retries retry_delay
      (Z.to_nat (max_retries + 1)) 0 (snd (enter self p w)).
Proof. unfold make_request, enter, bind. destruct p; reflexivity. Qed.

Lemma loop_step fuel retries w :
  retries <= max_retries ->
  loop' (S fuel) retries w =
    match attempt' retries w with
    | (Return (Continue retries'), w') => loop' fuel retries' w'
    | (Return (ReturnValue v), w') => (Return v, w')
    | (Raise e, w') => (Raise e, w')
    | (Diverge, w') => (Diverge, w')
    end.
Proof.
  intros H. cbn [request_loop]. destruct (Z.leb_spec retries max_retries); [|lia].
  unfold bind. destruct (attempt' retries w) as [[[r|v]|e|] w']; reflexivity.
Qed.

Lemma loop_done fuel retries w :
  max_retries < retries -> loop' fuel retries w = (Return VNone, w).
Proof.
  intros H. destruct fuel; cbn [request_loop];
    destruct (Z.leb_spec retries max_retries); (lia || reflexivity).
Qed.

(** The retry logic goes on with one more retry, returns, or lets the
    [ValueError] of a negative sleep escape. *)
Lemma retry_logic_cases retries w0 :
  exists t,
    trace (snd (retry_logic max_retries retry_delay retries w0)) = trace w0 ++ t /\
    store (snd (retry_logic max_retries retry_delay retries w0)) = store w0 /\
    (fst (retry_logic max_retries retry_delay retries w0) = Return (Continue (retries + 1))
     \/ (exists v, fst (retry_logic max_retries retry_delay retries w0) = Return (ReturnValue v))
     \/ (fst (retry_logic max_retries retry_delay retries w0) = Raise (Builtin ValueError)
         /\ retry_delay < 0)).
Proof.
  unfold retry_logic, bind, sleep.
  destruct (retries <? max_retries).
  - destruct (Z.ltb_spec (retry_delay * 2 ^ retries) 0) as [Hneg|Hpos]; simpl.
    + exists []. rewrite app_nil_r. repeat split. right. right. split; [reflexivity|].
      destruct (Z.lt_ge_cases retry_delay 0) as [|Hd]; [assumption|].
      pose proof (wait_time_nonneg retry_delay retries Hd). lia.
    + eexists. repeat split. left. reflexivity.
  - exists []. simpl. rewrite app_nil_r. repeat split. right. left. eexists. reflexivity.
Qed.

(** Whatever the response, the [try] block and its handlers go on with one
    more retry or return: nothing escapes. *)
Lemma handle_response_cases r retries w0 :
  exists t,
    trace (snd (try_except (handle_response retry_delay r retries)
                  (handlers max_retries retry_delay retries) w0)) = trace w0 ++ t /\
    store (snd (try_except (handle_response retry_delay r retries)
                  (handlers max_retries retry_delay retries) w0)) = store w0 /\
    (fst (try_except (handle_response retry_delay r retries)
            (handlers max_retries retry_delay retries) w0) = Return (Continue (retries + 1))
     \/ exists v,
       fst (try_except (handle_response retry_delay r retries)
              (handlers max_retries retry_delay retries) w0) = Return (ReturnValue v)).
Proof.
  unfold try_except, handle_response, bind, response_json, sleep, lift, Py.get.
  destruct (negb (status_code r =? 200)).
  - destruct (negb (String.eqb (text r) "")).
    + destruct (json r) as [info|]; unfold ret, raise, handlers;
        [|exists []; rewrite app_nil_r; simpl; eauto].
      destruct info; unfold ret, raise;
        try (exists []; rewrite app_nil_r; simpl; eauto; fail).
      destruct (Py.lookup "message" items); unfold ret;
        (destruct (_ || _); [|exists []; rewrite app_nil_r; simpl; eauto]);
        (destruct (_ <? 0); [exists []; rewrite app_nil_r; simpl; eauto|]);
        eexists; simpl; eauto.
    + unfold ret.
      destruct (Py.lookup "message" _); unfold ret;
        (destruct (_ || _); [|exists []; rewrite app_nil_r; simpl; eauto]);
        (destruct (_ <? 0); [exists []; rewrite app_nil_r; simpl; eauto|]);
        eexists; simpl; eauto.
  - destruct (json r); unfold ret, raise, handlers; exists []; rewrite app_nil_r; simpl; eauto.
Qed.


(** What a turn can do: go on with one more retry, return, or let the
    [ValueError] of a negative sleep escape.  It leaves the store alone. *)
Lemma attempt_cases retries w :
  exists t,
    trace (snd (attempt' retries w)) = trace w ++ t /\
    store (snd (attempt' retries w)) = store w /\
    (fst (attempt' retries w) = Return (Continue (retries + 1))
     \/ (exists v, fst (attempt' retries w) = Return (ReturnValue v))
     \/ (fst (attempt' retries w) = Raise (Builtin ValueError) /\ retry_delay < 0)).
Proof.
  destruct (verb_of method) as [v|] eqn:Hv.
  - rewrite (attempt_supported server self endpoint params method tmo max_retries retry_delay v retries w Hv).
    cbv zeta. set (rq := request_of _ _ _ _ _ _).
    destruct (server _ rq) as [r| | |].
    + destruct (handle_response_cases r retries (after_request rq w)) as (t & Ht & Hs & Hc).
      exists (Sent rq :: t). rewrite Ht, Hs. unfold after_request, record; simpl.
      rewrite <- app_assoc. repeat split. destruct Hc as [Hc|Hc]; [left|right; left]; exact Hc.
    + destruct (retry_logic_cases retries (after_request rq w)) as (t & Ht & Hs & Hc).
      exists (Sent rq :: t). rewrite Ht, Hs. unfold after_request, record; simpl.
      rewrite <- app_assoc. repeat split. exact Hc.
    + destruct (retry_logic_cases retries (after_request rq w)) as (t & Ht & Hs & Hc).
      exists (Sent rq :: t). rewrite Ht, Hs. unfold after_request, record; simpl.
      rewrite <- app_assoc. repeat split. exact Hc.
    + exists [Sent rq]. simpl. repeat split. right. left. eexists. reflexivity.
  - rewrite attempt_unsupported by assumption.
    exists []. rewrite app_nil_r. simpl. repeat split. right. left. eexists. reflexivity.
Qed.

End LoopFacts.

Section LoopTheorems.

Variable server : nat -> Request -> Reply.
Variable self : FacebookGraphAPI.
Variable endpoint : string.
Variable params : loc.
Variable method : string.
Variables tmo max_retries retry_delay : Z.

Local Abbreviation attempt' := (attempt server self endpoint params method tmo max_retries retry_delay).
Local Abbreviation loop' := (request_loop server self endpoint params method tmo max_retries retry_delay).

(** The loop only adds to the trace and never touches the store. *)
Lemma loop_frame fuel : forall retries w,
  exists t, trace (snd (loop' fuel retries w)) = trace w ++ t
            /\ store (snd (loop' fuel retries w)) = store w.
Proof.
  induction fuel as [|fuel IH]; intros retries w.
  - cbn [request_loop]. destruct (retries <=? max_retries);
      exists []; rewrite app_nil_r; split; reflexivity.
  - destruct (Z.le_gt_cases retries max_retries) as [Hle|Hgt].
    + rewrite loop_step by assumption.
      destruct (attempt_cases server self endpoint params method tmo max_retries retry_delay retries w)
        as (t & Ht & Hs & _).
      destruct (attempt' retries w) as [[[r|v]|e|] w']; simpl in Ht, Hs.
      * destruct (IH r w') as (t' & Ht' & Hs'). exists (t ++ t').
        rewrite Ht', Hs', Ht, Hs, app_assoc. split; reflexivity.
      * exists t. simpl. split; assumption.
      * exists t. simpl. split; assumption.
      * exists t. simpl. split; assumption.
    + rewrite loop_done by lia. exists []. rewrite app_nil_r. split; reflexivity.
Qed.



End LoopTheorems.

Section ReplyFacts.

Variable server : nat -> Request -> Reply.
Variable self : FacebookGraphAPI.
Variable endpoint : string.
Variable params : loc.
Variable method : string.
Variables tmo max_retries retry_delay : Z.
Variable v : Verb.
Hypothesis supported : verb_of method = Some v.

Local Abbreviation loop' := (request_loop server self endpoint params method tmo max_retries retry_delay).
Local Abbreviation rq_in := (request_of self endpoint params v tmo).


Lemma loop_success r payload fuel retries w :
  retries <= max_retries ->
  server (length (sent w)) (rq_in w) = Responded r ->
  status_code r = 200 -> json r = Some payload ->
  loop' (S fuel) retries w = (Return payload, after_request (rq_in w) w).
Proof.
  intros Hle Hsrv Hs Hj. rewrite loop_step by assumption.
  rewrite (attempt_supported _ _ _ _ _ _ _ _ v retries w supported). cbv zeta.
  rewrite Hsrv. erewrite handle_success by eassumption. reflexivity.
Qed.

Lemma loop_malformed r fuel retries w :
  retries <= max_retries ->
  server (length (sent w)) (rq_in w) = Responded r ->
  json r = None -> status_code r = 200 \/ text r <> "" ->
  loop' (S fuel) retries w = (Return VNone, after_request (rq_in w) w).
Proof.
  intros Hle Hsrv Hj Hc. rewrite loop_step by assumption.
  rewrite (attempt_supported _ _ _ _ _ _ _ _ v retries w supported). cbv zeta.
  rewrite Hsrv, handle_malformed by assumption. reflexivity.
Qed.

Lemma loop_permanent r fuel retries w :
  retries <= max_retries ->
  server (length (sent w)) (rq_in w) = Responded r ->
  status_code r <> 200 -> status_code r <> 429 -> indicates_rate_limit r = false ->
  loop' (S fuel) retries w = (Return VNone, after_request (rq_in w) w).
Proof.
  intros Hle Hsrv H200 H429 Hlim. rewrite loop_step by assumption.
  rewrite (attempt_supported _ _ _ _ _ _ _ _ v retries w supported). cbv zeta.
  rewrite Hsrv, handle_permanent by assumption. reflexivity.
Qed.

End ReplyFacts.

Lemma trace_enter self params w : trace (snd (enter self params w)) = trace w.
Proof. destruct params; reflexivity. Qed.

Lemma sent_enter self params w : sent (snd (enter self params w)) = sent w.
Proof. unfold sent. now rewrite trace_enter. Qed.

Lemma empty_body_no_rate_limit r : text r = "" -> indicates_rate_limit r = false.
Proof.
  intros H. unfold indicates_rate_limit, error_info_of. rewrite H. vm_compute. reflexivity.
Qed.

Lemma fuel_positive max_retries : 0 <= max_retries -> exists fuel, Z.to_nat (max_retries + 1) = S fuel.
Proof. intros H. exists (Z.to_nat max_retries). lia. Qed.

(** ** Properties of [make_request] *)






(** C5.  A response other than 200 that has not status 429 and whose error
    body does not mention a rate limit: [make_request] returns [None] after
    that one request, without a retry and without a sleep. *)
Theorem C5_permanent_error_fails_at_once :
  forall server self endpoint params method v tmo max_retries retry_delay w r,
    verb_of method = Some v ->
    0 <= max_retries ->
    answers server (length (sent w)) (Responded r) ->
    status_code r <> 200 ->
    status_code r <> 429 ->
    indicates_rate_limit r = false ->
    let w0 := snd (enter self params w) in
    let rq := request_of self endpoint (fst (enter self params w)) v tmo w0 in
    let res := make_request server self endpoint params method tmo max_retries retry_delay w in
    fst res = Return VNone /\ trace (snd res) = trace w ++ [Sent rq].
Proof.
  intros server self endpoint params method v tmo max_retries retry_delay w r
    Hv Hm Hsrv H200 H429 Hlim w0 rq res.
  unfold res. rewrite make_request_enter.
  destruct (fuel_positive max_retries Hm) as [fuel ->].
  rewrite (loop_permanent server self endpoint _ method tmo max_retries retry_delay v Hv r);
    [|lia|rewrite sent_enter; apply Hsrv|assumption..].
  split; [reflexivity|]. unfold after_request, record. cbn [snd trace].
  rewrite trace_enter. reflexivity.
Qed.

Lemma C5_witness :
  let res := make_request (fun _ _ => Responded not_found) example_client "nobody" None "GET" 30 3 5
               empty_world in
  fst res = Return VNone /\ length (sent (snd res)) = 1%nat /\ slept (snd res) = [].
Proof.
  pose proof (C5_permanent_error_fails_at_once (fun _ _ => Responded not_found) example_client
                "nobody" None "GET" GET 30 3 5 empty_world not_found
                eq_refl ltac:(lia) (fun _ => eq_refl) ltac:(vm_compute; discriminate)
                ltac:(vm_compute; discriminate) ltac:(vm_compute; reflexivity)) as H.
  cbv zeta in H. destruct H as (H1 & H2).
  split; [exact H1|]. unfold sent, slept. rewrite H2. split; reflexivity.
Defined.

(** C6, amended.  A response whose body does not decode as JSON makes
    [make_request] return [None] after that one request, without a retry and
    without a sleep, except for an empty body under status 429: the empty body
    of a response other than 200 is not decoded. *)
Theorem C6_malformed_body_fails_at_once :
  forall server self endpoint params method v tmo max_retries retry_delay w r,
    verb_of method = Some v ->
    0 <= max_retries ->
    answers server (length (sent w)) (Responded r) ->
    json r = None ->
    ~ (status_code r = 429 /\ text r = "") ->
    let w0 := snd (enter self params w) in
    let rq := request_of self endpoint (fst (enter self params w)) v tmo w0 in
    let res := make_request server self endpoint params method tmo max_retries retry_delay w in
    fst res = Return VNone /\ trace (snd res) = trace w ++ [Sent rq].
Proof.
  intros server self endpoint params method v tmo max_retries retry_delay w r
    Hv Hm Hsrv Hj Hne w0 rq res.
  unfold res. rewrite make_request_enter.
  destruct (fuel_positive max_retries Hm) as [fuel ->].
  assert (Hsrv0 : forall rq0, server (length (sent (snd (enter self params w)))) rq0 = Responded r).
  { intros rq0. rewrite sent_enter. apply Hsrv. }
  assert (Hloop : request_loop server self endpoint (fst (enter self params w)) method tmo
                    max_retries retry_delay (S fuel) 0 (snd (enter self params w))
                  = (Return VNone, after_request rq w0)).
  { destruct (Z.eq_dec (status_code r) 200) as [E200|N200].
    - apply (loop_malformed server self endpoint _ method tmo max_retries retry_delay v Hv r);
        [lia|apply Hsrv0|assumption|left; assumption].
    - destruct (String.eqb_spec (text r) "") as [Eempty|Nempty].
      + apply (loop_permanent server self endpoint _ method tmo max_retries retry_delay v Hv r);
          [lia|apply Hsrv0|assumption| |apply empty_body_no_rate_limit; assumption].
        intros E429. apply Hne. split; assumption.
      + apply (loop_malformed server self endpoint _ method tmo max_retries retry_delay v Hv r);
          [lia|apply Hsrv0|assumption|right; assumption]. }
  rewrite Hloop. split; [reflexivity|]. unfold after_request, record, w0. cbn [snd trace].
  rewrite trace_enter. reflexivity.
Qed.

Lemma C6_witness :
  let res := make_request (fun _ _ => Responded html_200) example_client "me" None "GET" 30 3 5
               empty_world in
  fst res = Return VNone /\ length (sent (snd res)) = 1%nat /\ slept (snd res) = [].
Proof.
  pose proof (C6_malformed_body_fails_at_once (fun _ _ => Responded html_200) example_client
                "me" None "GET" GET 30 3 5 empty_world html_200
                eq_refl ltac:(lia) (fun _ => eq_refl) eq_refl
                ltac:(vm_compute; intros [H _]; discriminate H)) as H.
  cbv zeta in H. destruct H as (H1 & H2).
  split; [exact H1|]. unfold sent, slept. rewrite H2. split; reflexivity.
Defined.

(** C6 as stated fails: the empty body does not decode, yet under status 429
    it is retried, with the default settings four times over. *)
Lemma C6_counterexample :
  let res := make_request (fun _ _ => Responded empty_429) example_client "me" None "GET"
               (REQUEST_TIMEOUT default_config) (MAX_RETRIES default_config)
               (RETRY_DELAY default_config) empty_world in
  json empty_429 = None
  /\ fst res = Return VNone
  /\ length (sent (snd res)) = 4%nat
  /\ slept (snd res) = [5; 10; 20; 40].
Proof.
  vm_compute. repeat split.
Qed.








(** With a negative delay the [time.sleep] of line 131, which no [try] block
    covers, raises [ValueError] after the first timeout. *)
Example negative_delay_escapes :
  fst (make_request (fun _ _ => TimedOut) example_client "me" None "GET" 30 3 (-5) empty_world)
  = Raise (Builtin ValueError).
Proof. vm_compute. reflexivity. Qed.

(** ** One turn of the pagination loop *)

Section DigestFacts.

Variable results_key : string.

Lemma digest_falsy all_results response :
  Py.truthy response = false ->
  digest results_key all_results response = inr (Break all_results).
Proof. intros H. unfold digest, and_then. rewrite H. reflexivity. Qed.

Lemma digest_no_key all_results items :
  Py.lookup results_key items = None ->
  digest results_key all_results (VDict items) = inr (Break all_results).
Proof.
  intros H. destruct items as [|kv items]; [reflexivity|].
  unfold digest, and_then, Py.contains. cbn [Py.truthy negb]. rewrite H. reflexivity.
Qed.

Lemma lookup_truthy key items x : Py.lookup key items = Some x -> Py.truthy (VDict items) = true.
Proof. destruct items; [discriminate | reflexivity]. Qed.

Lemma digest_last_page all_results page records :
  page_records results_key page = Some records ->
  paging_ok page = true ->
  next_cursor page = None ->
  digest results_key all_results page = inr (Break (all_results ++ records)).
Proof.
  unfold page_records, paging_ok, next_cursor.
  destruct page as [| | | | |?|items]; try discriminate.
  destruct (Py.lookup results_key items) as [[| | | | |recs|?]|] eqn:Hk; try discriminate.
  intros [= <-] Hp Hn.
  unfold digest, and_then, Py.contains, Py.getitem. rewrite (lookup_truthy _ _ _ Hk), Hk.
  cbn [negb bool_decide decide_rel Py.iterate Py.len].
  destruct (Py.lookup "paging" items) as [[| | | | |?|paging]|]; try discriminate.
  - rewrite Hn. reflexivity.
  - reflexivity.
Qed.

Lemma digest_more all_results page records cursor :
  page_records results_key page = Some records ->
  paging_ok page = true ->
  next_cursor page = Some cursor ->
  digest results_key all_results page = inr (Again (all_results ++ records) cursor).
Proof.
  unfold page_records, paging_ok, next_cursor.
  destruct page as [| | | | |?|items]; try discriminate.
  destruct (Py.lookup results_key items) as [[| | | | |recs|?]|] eqn:Hk; try discriminate.
  intros [= <-] Hp Hn.
  unfold digest, and_then, Py.contains, Py.getitem. rewrite (lookup_truthy _ _ _ Hk), Hk.
  cbn [negb bool_decide decide_rel Py.iterate Py.len].
  destruct (Py.lookup "paging" items) as [[| | | | |?|paging]|]; try discriminate.
  rewrite Hn. reflexivity.
Qed.

End DigestFacts.

Section PaginationFacts.

Variable server : nat -> Request -> Reply.
Variable cfg : Config.
Variable self : FacebookGraphAPI.
Variable results_key : string.

Local Abbreviation fetch := (fun endpoint params =>
  make_request server self endpoint (Some params) "GET"
    (REQUEST_TIMEOUT cfg) (MAX_RETRIES cfg) (RETRY_DELAY cfg)).
Local Abbreviation pages_loop := (pagination_loop server cfg self results_key).

Lemma pagination_step fuel endpoint params all_results next_page_url w :
  pages_loop (S fuel) endpoint params all_results next_page_url w =
    match follow_cursor self next_page_url endpoint params w with
    | (Return target, w1) =>
        match fetch (fst target) (snd target) w1 with
        | (Return response, w2) =>
            match digest results_key all_results response with
            | inr (Break results) => (Return results, w2)
            | inr (Again results next) => pages_loop fuel (fst target) (snd target) results next w2
            | inl e => (Raise (Builtin e), w2)
            end
        | (Raise e, w2) => (Raise e, w2)
        | (Diverge, w2) => (Diverge, w2)
        end
    | (Raise e, w1) => (Raise e, w1)
    | (Diverge, w1) => (Diverge, w1)
    end.
Proof.
  cbn [pagination_loop]. unfold bind at 1.
  destruct (follow_cursor self next_page_url endpoint params w) as [[target|e|] w1]; try reflexivity.
  unfold bind at 1.
  destruct (fetch (fst target) (snd target) w1) as [[response|e|] w2]; try reflexivity.
  unfold bind, lift.
  destruct (digest results_key all_results response) as [e|[results|results next]]; reflexivity.
Qed.

(** Parsing a query string writes to the new dictionary only. *)
Lemma parse_params_frame fields : forall params w,
  trace (snd (parse_params fields params w)) = trace w
  /\ forall l, l <> params -> store (snd (parse_params fields params w)) !! l = store w !! l.
Proof.
  induction fields as [|param fields IH]; intros params w; cbn [parse_params].
  - split; reflexivity.
  - destruct (PyStr.split "=" param) as [|key [|v [|? ?]]]; try (split; reflexivity).
    unfold bind, dict_set.
    match goal with |- context [parse_params fields params ?w1] =>
      destruct (IH params w1) as [Ht Hs];
      destruct (parse_params fields params w1) as [[[]|e|] w2] end;
      cbn [snd trace store] in *; (split; [exact Ht|]);
      intros l Hl; rewrite (Hs l Hl); apply lookup_insert_ne; congruence.
Qed.

Lemma parse_params_ok fields : forall params w,
  forallb (fun param => Nat.eqb (length (PyStr.split "=" param)) 2) fields = true ->
  fst (parse_params fields params w) = Return tt.
Proof.
  induction fields as [|param fields IH]; intros params w H; cbn [parse_params]; [reflexivity|].
  cbn [forallb] in H. apply andb_prop in H as [H1 H2].
  destruct (PyStr.split "=" param) as [|key [|v [|? ?]]]; try discriminate.
  unfold bind, dict_set.
  match goal with |- context [parse_params fields params ?w1] =>
    specialize (IH params w1 H2); destruct (parse_params fields params w1) as [o w2] end.
  cbn [fst] in IH. subst o. reflexivity.
Qed.

(** Following a cursor sends nothing, and leaves every dictionary that
    exists as it is. *)
Lemma follow_cursor_frame cursor endpoint params w :
  trace (snd (follow_cursor self cursor endpoint params w)) = trace w
  /\ forall l, is_Some (store w !! l) ->
       store (snd (follow_cursor self cursor endpoint params w)) !! l = store w !! l.
Proof.
  unfold follow_cursor.
  destruct (Py.truthy cursor); [|split; reflexivity].
  destruct cursor; try (split; reflexivity).
  destruct (PyStr.split "?" _) as [|endpoint' [|query rest]]; try (split; reflexivity).
  unfold bind, new_dict.
  set (l0 := fresh (dom (store w))).
  set (w1 := {| trace := trace w; store := <[l0 := ∅]> (store w) |}).
  destruct (parse_params_frame (PyStr.split "&" query) l0 w1) as [Ht Hs].
  assert (Hfresh : forall l, is_Some (store w !! l) -> l <> l0).
  { intros l Hl ->. apply (is_fresh (dom (store w))). apply elem_of_dom. exact Hl. }
  destruct (parse_params (PyStr.split "&" query) l0 w1) as [[[]|e|] w2];
    unfold ret; cbn [snd] in *; (split; [exact Ht|]);
    intros l Hl; rewrite (Hs l (Hfresh l Hl)); unfold w1; cbn [store];
    apply lookup_insert_ne; intros E; apply (Hfresh l Hl); congruence.
Qed.

Lemma follow_cursor_ok cursor endpoint params w :
  usable_cursor self cursor = true ->
  exists target, fst (follow_cursor self cursor endpoint params w) = Return target.
Proof.
  unfold usable_cursor, follow_cursor, query_ok.
  destruct (Py.truthy cursor); [|eexists; reflexivity].
  destruct cursor; try discriminate.
  destruct (PyStr.split "?" _) as [|endpoint' [|query rest]]; try (eexists; reflexivity).
  intros H. unfold bind, new_dict.
  match goal with |- context [parse_params ?f ?p ?w1] =>
    pose proof (parse_params_ok f p w1 H) as Hp; destruct (parse_params f p w1) as [o w2] end.
  cbn [fst] in Hp. subst o. eexists. reflexivity.
Qed.

(** [make_request] writes the access token into the dictionary it is given
    and leaves the other dictionaries alone. *)
Lemma make_request_store endpoint params method tmo max_retries retry_delay w :
  store (snd (make_request server self endpoint (Some params) method tmo max_retries retry_delay w))
  = <[params := <["access_token" := VStr (access_token self)]> (store w !!! params)]> (store w).
Proof.
  rewrite make_request_enter.
  destruct (loop_frame server self endpoint (fst (enter self (Some params) w)) method tmo
              max_retries retry_delay (Z.to_nat (max_retries + 1)) 0
              (snd (enter self (Some params) w))) as (t & _ & Hs).
  rewrite Hs. reflexivity.
Qed.

(** A page served with status 200 is what the fetch returns, after one
    request and no sleep. *)
Lemma fetch_page endpoint params page w :
  0 <= MAX_RETRIES cfg ->
  serves server (length (sent w)) page ->
  exists w2,
    fetch endpoint params w = (Return page, w2)
    /\ length (sent w2) = S (length (sent w))
    /\ slept w2 = slept w.
Proof.
  intros Hm (r & Hsrv & Hs & Hj).
  rewrite make_request_enter.
  destruct (fuel_positive (MAX_RETRIES cfg) Hm) as [fuel ->].
  erewrite (loop_success server self endpoint _ "GET" _ _ _ GET eq_refl r page);
    [|lia|rewrite sent_enter; apply Hsrv|assumption|assumption].
  eexists. split; [reflexivity|].
  rewrite sent_after_request, length_app, sent_enter. cbn [length]. split; [lia|].
  unfold slept, after_request, record. cbn [trace]. rewrite sleeps_app, trace_enter. cbn [sleeps].
  apply app_nil_r.
Qed.

End PaginationFacts.

Lemma trace_enter_pages params limit w : trace (snd (enter_pages params limit w)) = trace w.
Proof. destruct params; reflexivity. Qed.

Section PaginationTheorems.

Variable server : nat -> Request -> Reply.
Variable cfg : Config.
Variable self : FacebookGraphAPI.
Variable results_key : string.

Local Abbreviation fetch := (fun endpoint params =>
  make_request server self endpoint (Some params) "GET"
    (REQUEST_TIMEOUT cfg) (MAX_RETRIES cfg) (RETRY_DELAY cfg)).
Local Abbreviation pages_loop := (pagination_loop server cfg self results_key).

Lemma get_paginated_results_enter endpoint params limit fuel w :
  get_paginated_results server cfg self results_key endpoint params limit fuel w
  = pages_loop fuel endpoint (fst (enter_pages params limit w)) [] VNone
      (snd (enter_pages params limit w)).
Proof. unfold get_paginated_results, enter_pages, bind. destruct params; reflexivity. Qed.

(** The loop over a chain of pages gathers their records in order, one
    request a page. *)
Lemma loop_chain pages : forall fuel endpoint params all_results cursor w,
  0 <= MAX_RETRIES cfg ->
  chain_ok self results_key pages = true ->
  usable_cursor self cursor = true ->
  (forall i page, pages !! i = Some page -> serves server (length (sent w) + i) page) ->
  (length pages <= fuel)%nat ->
  exists w',
    pages_loop fuel endpoint params all_results cursor w
    = (Return (all_results ++ concat (List.map (records_of results_key) pages)), w')
    /\ length (sent w') = (length (sent w) + length pages)%nat
    /\ slept w' = slept w.
Proof.
  induction pages as [|page rest IH]; intros fuel endpoint params all_results cursor w
    Hm Hchain Hcur Hsrv Hfuel; [discriminate|].
  destruct fuel as [|fuel]; [cbn [length] in Hfuel; lia|].
  rewrite pagination_step.
  destruct (follow_cursor_ok self cursor endpoint params w Hcur) as [target Htarget].
  destruct (follow_cursor_frame self cursor endpoint params w) as [Htrace _].
  destruct (follow_cursor self cursor endpoint params w) as [o w1].
  cbn [fst snd] in Htarget, Htrace. subst o.
  assert (Hsent1 : sent w1 = sent w) by (unfold sent; now rewrite Htrace).
  assert (Hslept1 : slept w1 = slept w) by (unfold slept; now rewrite Htrace).
  destruct (fetch_page server cfg self (fst target) (snd target) page w1 Hm) as (w2 & Hf & Hsent2 & Hslept2).
  { rewrite Hsent1. replace (length (sent w)) with (length (sent w) + 0)%nat by lia.
    apply Hsrv. reflexivity. }
  rewrite Hf. rewrite Hsent1 in Hsent2. rewrite Hslept1 in Hslept2.
  cbn [chain_ok] in Hchain.
  apply andb_prop in Hchain as [Hchain Hrest]. apply andb_prop in Hchain as [Hrec Hpaging].
  apply bool_decide_eq_true in Hrec as [records Hrec].
  assert (Hrecords : records_of results_key page = records)
    by (unfold records_of; rewrite Hrec; reflexivity).
  cbn [List.map concat]. rewrite Hrecords.
  destruct rest as [|page' rest].
  - apply bool_decide_eq_true in Hrest.
    rewrite (digest_last_page results_key all_results page records Hrec Hpaging Hrest).
    exists w2. cbn [List.map concat length]. rewrite app_nil_r.
    split; [reflexivity|]. split; [lia | congruence].
  - destruct (next_cursor page) as [next|] eqn:Hnext; [|discriminate].
    apply andb_prop in Hrest as [Hnext_ok Hrest].
    rewrite (digest_more results_key all_results page records next Hrec Hpaging Hnext).
    destruct (IH fuel (fst target) (snd target) (all_results ++ records) next w2 Hm Hrest Hnext_ok)
      as (w' & Hloop & Hsent' & Hslept').
    + intros i p Hp. replace (length (sent w2) + i)%nat with (length (sent w) + S i)%nat by lia.
      apply Hsrv. exact Hp.
    + cbn [length] in *. lia.
    + exists w'. rewrite Hloop, <- app_assoc.
      split; [reflexivity|]. split; [cbn [length] in *; lia | congruence].
Qed.

End PaginationTheorems.

(** ** Properties of [get_paginated_results] *)

(** C1.  A sequence of pages, each fetched with status 200 and holding the
    results key, each but the last with a cursor to the next: the result of
    [get_paginated_results] is the concatenation of the record arrays in the
    order the pages were served, so page [i]'s records precede page
    [i + 1]'s and the length is the sum of the record counts; a single page
    without cursor gives that page's records, once. *)
Theorem C1_pages_concatenated_in_order :
  forall server cfg self results_key endpoint params limit pages fuel w,
    0 <= MAX_RETRIES cfg ->
    chain_ok self results_key pages = true ->
    (forall i page, pages !! i = Some page -> serves server (length (sent w) + i) page) ->
    (length pages <= fuel)%nat ->
    let res := get_paginated_results server cfg self results_key endpoint params limit fuel w in
    fst res = Return (concat (List.map (records_of results_key) pages))
    /\ length (concat (List.map (records_of results_key) pages))
       = list_sum (List.map (fun page => length (records_of results_key page)) pages)
    /\ length (sent (snd res)) = (length (sent w) + length pages)%nat
    /\ (forall page, pages = [page] -> fst res = Return (records_of results_key page)).
Proof.
  intros server cfg self results_key endpoint params limit pages fuel w Hm Hchain Hsrv Hfuel res.
  assert (Hres : fst res = Return (concat (List.map (records_of results_key) pages))
                 /\ length (sent (snd res)) = (length (sent w) + length pages)%nat).
  { unfold res. rewrite get_paginated_results_enter.
    destruct (loop_chain server cfg self results_key pages fuel endpoint
                (fst (enter_pages params limit w)) [] VNone (snd (enter_pages params limit w))
                Hm Hchain eq_refl) as (w' & Hloop & Hsent & _).
    - unfold sent. rewrite trace_enter_pages. exact Hsrv.
    - exact Hfuel.
    - rewrite Hloop. cbn [fst snd]. split; [reflexivity|].
      rewrite Hsent. unfold sent. now rewrite trace_enter_pages. }
  destruct Hres as [Hval Hsent]. split; [exact Hval|]. split; [|split; [exact Hsent|]].
  - rewrite length_concat, List.map_map. reflexivity.
  - intros page ->. rewrite Hval. cbn [List.map concat]. now rewrite app_nil_r.
Qed.

Lemma C1_witness :
  let res := get_paginated_results accounts_server default_config example_client "data"
               "me/accounts" None 100 2 empty_world in
  fst res = Return [VDict [("id", VStr "1")]; VDict [("id", VStr "2")]]
  /\ length (sent (snd res)) = 2%nat.
Proof.
  pose proof (C1_pages_concatenated_in_order accounts_server default_config example_client "data"
                "me/accounts" None 100 [accounts_page_1; accounts_page_2] 2 empty_world
                ltac:(vm_compute; discriminate) ltac:(vm_compute; reflexivity)) as H.
  cbv zeta in H. destruct H as (H1 & _ & H3 & _).
  - intros [|[|i]] page; cbn; intros [= <-]; eexists; repeat split; reflexivity.
  - cbn. lia.
  - split; [exact H1 | exact H3].
Defined.

(** C2.  One turn of the loop, once the request of the turn has been made:
    a failed fetch ([None], or any false value) stops the loop with the
    results gathered so far and nothing added; else a response without the
    results key stops it likewise; else the records of the page are added,
    and without a next cursor the loop stops there.  A fetch that fails on
    the page after gives back the very list that a page without cursor gives:
    the returned value does not tell the two apart. *)
Theorem C2_termination_conditions_in_order :
  forall server cfg self results_key fuel endpoint params all_results next_page_url w
         target w1 response w2,
    follow_cursor self next_page_url endpoint params w = (Return target, w1) ->
    make_request server self (fst target) (Some (snd target)) "GET"
      (REQUEST_TIMEOUT cfg) (MAX_RETRIES cfg) (RETRY_DELAY cfg) w1 = (Return response, w2) ->
    let loop := pagination_loop server cfg self results_key in
    let turn := loop (S fuel) endpoint params all_results next_page_url w in
    (Py.truthy response = false -> turn = (Return all_results, w2))
    /\ (forall items,
          response = VDict items -> Py.lookup results_key items = None ->
          turn = (Return all_results, w2))
    /\ (forall records,
          page_records results_key response = Some records ->
          paging_ok response = true ->
          next_cursor response = None ->
          turn = (Return (all_results ++ records), w2))
    /\ (forall records cursor,
          page_records results_key response = Some records ->
          paging_ok response = true ->
          next_cursor response = Some cursor ->
          turn = loop fuel (fst target) (snd target) (all_results ++ records) cursor w2)
    /\ (forall records cursor target' w3 w4,
          page_records results_key response = Some records ->
          paging_ok response = true ->
          next_cursor response = Some cursor ->
          follow_cursor self cursor (fst target) (snd target) w2 = (Return target', w3) ->
          make_request server self (fst target') (Some (snd target')) "GET"
            (REQUEST_TIMEOUT cfg) (MAX_RETRIES cfg) (RETRY_DELAY cfg) w3 = (Return VNone, w4) ->
          loop (S (S fuel)) endpoint params all_results next_page_url w
          = (Return (all_results ++ records), w4)).
Proof.
  intros server cfg self results_key fuel endpoint params all_results next_page_url w
    target w1 response w2 Hfollow Hfetch loop turn.
  assert (Hturn : forall f,
            loop (S f) endpoint params all_results next_page_url w
            = match digest results_key all_results response with
              | inr (Break results) => (Return results, w2)
              | inr (Again results next) => loop f (fst target) (snd target) results next w2
              | inl e => (Raise (Builtin e), w2)
              end).
  { intros f. unfold loop. rewrite pagination_step, Hfollow, Hfetch. reflexivity. }
  repeat split.
  - intros Hfalse. unfold turn. rewrite Hturn, digest_falsy by assumption. reflexivity.
  - intros items -> Hkey. unfold turn. rewrite Hturn, digest_no_key by assumption. reflexivity.
  - intros records Hrec Hpaging Hnext. unfold turn.
    rewrite Hturn, (digest_last_page results_key all_results response records) by assumption.
    reflexivity.
  - intros records cursor Hrec Hpaging Hnext. unfold turn.
    rewrite Hturn, (digest_more results_key all_results response records cursor) by assumption.
    reflexivity.
  - intros records cursor target' w3 w4 Hrec Hpaging Hnext Hfollow' Hfetch'.
    rewrite Hturn, (digest_more results_key all_results response records cursor) by assumption.
    unfold loop. rewrite pagination_step, Hfollow', Hfetch', digest_falsy by reflexivity.
    reflexivity.
Qed.

Lemma C2_witness :
  fst (pagination_loop truncating_server default_config example_client "data" 2
         "me/accounts" 1%positive [] VNone caller_world)
  = Return [VDict [("id", VStr "1")]].
Proof.
  pose proof (C2_termination_conditions_in_order truncating_server default_config example_client
                "data" 0 "me/accounts" 1%positive [] VNone caller_world
                ("me/accounts", 1%positive) caller_world accounts_page_1
                (snd (make_request truncating_server example_client "me/accounts" (Some 1%positive)
                        "GET" 30 3 5 caller_world))
                eq_refl ltac:(vm_compute; reflexivity)) as H.
  cbv zeta in H. destruct H as (_ & _ & _ & _ & H).
  set (w2 := snd (make_request truncating_server example_client "me/accounts" (Some 1%positive)
                    "GET" 30 3 5 caller_world)) in *.
  rewrite (H [VDict [("id", VStr "1")]]
             (VStr "https://graph.facebook.com/v18.0/me/accounts?after=X")
             ("me/accounts", 2%positive)
             (snd (follow_cursor example_client
                     (VStr "https://graph.facebook.com/v18.0/me/accounts?after=X")
                     "me/accounts" 1%positive w2))
             (snd (make_request truncating_server example_client "me/accounts" (Some 2%positive)
                     "GET" 30 3 5
                     (snd (follow_cursor example_client
                             (VStr "https://graph.facebook.com/v18.0/me/accounts?after=X")
                             "me/accounts" 1%positive w2))))
             eq_refl eq_refl eq_refl
             ltac:(vm_compute; reflexivity) ltac:(vm_compute; reflexivity)).
  reflexivity.
Defined.

(** Silent truncation, on a run: a listing whose second page cannot be fetched
    and a listing that ends after its first page return the same list. *)
Example truncation_is_silent :
  fst (get_paginated_results truncating_server default_config example_client "data"
         "me/accounts" None 100 2 empty_world)
  = fst (get_paginated_results
           (fun _ _ => Responded (ok_response "{'data': [{'id': '1'}]}"
                                    (VDict [("data", VList [VDict [("id", VStr "1")]])])))
           default_config example_client "data" "me/accounts" None 100 2 empty_world).
Proof. vm_compute. reflexivity. Qed.

(** C9: the code at the failing input.  The first page is served with a next
    cursor whose [after] value ends in [==]; on the second turn
    [key, value = param.split('=')] raises [ValueError], which nothing
    catches: the call does not return a list. *)
Theorem C9_cursor_value_with_equals_sign_raises :
  forall fuel,
    fst (get_paginated_results equals_cursor_server default_config example_client "data"
           "me/accounts" None 100 (S (S fuel)) empty_world)
    = Raise (Builtin ValueError).
Proof. intros fuel. vm_compute. reflexivity. Qed.

(** ** The caller's dictionary *)

Section CallerDictionary.

Variable server : nat -> Request -> Reply.
Variable cfg : Config.
Variable self : FacebookGraphAPI.
Variable results_key : string.

Local Abbreviation token := (VStr (access_token self)).

(** What a fetch leaves at [p] when the dictionary there holds the token
    already: the same dictionary, whichever dictionary the fetch wrote to. *)
Lemma fetch_keeps (p : loc) (D : dict) endpoint params method tmo max_retries retry_delay w :
  D !! "access_token" = Some token ->
  store w !! p = Some D ->
  store (snd (make_request server self endpoint (Some params) method tmo max_retries retry_delay w)) !! p
  = Some D.
Proof.
  intros Htok Hp. rewrite make_request_store.
  destruct (decide (params = p)) as [->|Hne].
  - rewrite lookup_insert_eq. rewrite (lookup_total_correct _ _ _ Hp).
    f_equal. apply insert_id. exact Htok.
  - rewrite lookup_insert_ne by exact Hne. exact Hp.
Qed.

(** The pagination loop leaves such a dictionary as it is. *)
Lemma pagination_keeps (p : loc) (D : dict) :
  D !! "access_token" = Some token ->
  forall fuel endpoint params all_results cursor w,
    store w !! p = Some D ->
    store (snd (pagination_loop server cfg self results_key fuel endpoint params all_results cursor w)) !! p
    = Some D.
Proof.
  intros Htok. induction fuel as [|fuel IH]; intros endpoint params all_results cursor w Hp;
    [exact Hp|].
  rewrite pagination_step.
  destruct (follow_cursor_frame self cursor endpoint params w) as [_ Hframe].
  specialize (Hframe p (ex_intro _ D Hp)). rewrite Hp in Hframe.
  destruct (follow_cursor self cursor endpoint params w) as [[target|e|] w1];
    cbn [snd] in Hframe; try exact Hframe.
  pose proof (fetch_keeps p D (fst target) (snd target) "GET" (REQUEST_TIMEOUT cfg)
                (MAX_RETRIES cfg) (RETRY_DELAY cfg) w1 Htok Hframe) as Hfetch.
  destruct (make_request server self (fst target) (Some (snd target)) "GET" (REQUEST_TIMEOUT cfg)
              (MAX_RETRIES cfg) (RETRY_DELAY cfg) w1) as [[response|e|] w2];
    cbn [snd] in Hfetch; try exact Hfetch.
  destruct (digest results_key all_results response) as [e|[results|results next]];
    try exact Hfetch.
  apply IH. exact Hfetch.
Qed.

End CallerDictionary.

(** C10, amended.  [make_request] writes the access token into the caller's
    dictionary; [get_paginated_results] writes the page size into it and,
    through its first call of [make_request] on the same dictionary, the
    access token as well.  The caller sees both after the call; every other
    entry is as it was. *)
Theorem C10_caller_dictionary_after_the_call :
  forall server cfg self results_key endpoint method tmo max_retries retry_delay limit fuel
         (p : loc) (d : dict) w,
    store w !! p = Some d ->
    let token := VStr (access_token self) in
    let requested :=
      store (snd (make_request server self endpoint (Some p) method tmo max_retries retry_delay w))
        !!! p in
    let paginated :=
      store (snd (get_paginated_results server cfg self results_key endpoint (Some p) limit
                    (S fuel) w)) !!! p in
    requested = <["access_token" := token]> d
    /\ paginated = <["access_token" := token]> (<["limit" := VInt limit]> d)
    /\ requested !! "access_token" = Some token
    /\ paginated !! "limit" = Some (VInt limit)
    /\ paginated !! "access_token" = Some token
    /\ (forall key, key <> "access_token" -> requested !! key = d !! key)
    /\ (forall key, key <> "access_token" -> key <> "limit" -> paginated !! key = d !! key).
Proof.
  intros server cfg self results_key endpoint method tmo max_retries retry_delay limit fuel
    p d w Hp token requested paginated.
  assert (Hreq : requested = <["access_token" := token]> d).
  { unfold requested. rewrite make_request_store, lookup_total_insert_eq.
    now rewrite (lookup_total_correct _ _ _ Hp). }
  assert (Hpag : paginated = <["access_token" := token]> (<["limit" := VInt limit]> d)).
  { unfold paginated. apply lookup_total_correct.
    rewrite get_paginated_results_enter, pagination_step.
    set (w0 := snd (enter_pages (Some p) limit w)).
    assert (H0 : store w0 !! p = Some (<["limit" := VInt limit]> d)).
    { unfold w0, enter_pages. cbn [fst snd store]. rewrite lookup_insert_eq.
      now rewrite (lookup_total_correct _ _ _ Hp). }
    change (follow_cursor self VNone endpoint (fst (enter_pages (Some p) limit w)) w0)
      with (Return (endpoint, p), w0 : World).
    cbn [fst snd].
    assert (Hfetch :
              store (snd (make_request server self endpoint (Some p) "GET" (REQUEST_TIMEOUT cfg)
                            (MAX_RETRIES cfg) (RETRY_DELAY cfg) w0)) !! p
              = Some (<["access_token" := token]> (<["limit" := VInt limit]> d))).
    { rewrite make_request_store, lookup_insert_eq.
      now rewrite (lookup_total_correct _ _ _ H0). }
    destruct (make_request server self endpoint (Some p) "GET" (REQUEST_TIMEOUT cfg)
                (MAX_RETRIES cfg) (RETRY_DELAY cfg) w0) as [[response|e|] w2];
      cbn [snd] in Hfetch; try exact Hfetch.
    destruct (digest results_key [] response) as [e|[results|results next]]; try exact Hfetch.
    apply pagination_keeps; [apply lookup_insert_eq | exact Hfetch]. }
  rewrite Hreq, Hpag. repeat split.
  - apply lookup_insert_eq.
  - rewrite lookup_insert_ne by discriminate. apply lookup_insert_eq.
  - apply lookup_insert_eq.
  - intros key Hk. apply lookup_insert_ne. congruence.
  - intros key Hk Hl. rewrite lookup_insert_ne by congruence. apply lookup_insert_ne. congruence.
Qed.

Lemma C10_witness :
  let paginated :=
    store (snd (get_paginated_results accounts_server default_config example_client "data"
                  "me/accounts" (Some 1%positive) 100 2 caller_world)) !!! 1%positive in
  paginated !! "limit" = Some (VInt 100)
  /\ paginated !! "access_token" = Some (VStr "EAAB")
  /\ paginated !! "fields" = Some (VStr "id,name").
Proof.
  pose proof (C10_caller_dictionary_after_the_call accounts_server default_config example_client
                "data" "me/accounts" "GET" 30 3 5 100 1 1%positive
                {[ "fields" := VStr "id,name" ]} caller_world eq_refl) as H.
  cbv zeta in H. destruct H as (_ & _ & _ & H4 & H5 & _ & H7).
  split; [exact H4 | split; [exact H5|]].
  rewrite (H7 "fields") by discriminate. reflexivity.
Defined.

(** C10 as stated fails: [get_paginated_results] changes an entry other than
    the page size.  The caller's own [access_token] entry is overwritten with
    the client's token. *)
Lemma C10_counterexample :
  let before := store tokened_world !!! 1%positive : dict in
  let after :=
    store (snd (get_paginated_results accounts_server default_config example_client "data"
                  "me/accounts" (Some 1%positive) 100 2 tokened_world)) !!! 1%positive : dict in
  before !! "access_token" = Some (VStr "caller-token")
  /\ after !! "access_token" = Some (VStr "EAAB")
  /\ after !! "access_token" <> before !! "access_token".
Proof.
  vm_compute. repeat split. discriminate.
Qed.

(** * Further properties *)

(** ** The shape of a call of [make_request] *)

Section ShapeFacts.

Variable server : nat -> Request -> Reply.
Variable self : FacebookGraphAPI.
Variable endpoint : string.
Variable params : loc.
Variable method : string.
Variables tmo max_retries retry_delay : Z.
Variable v : Verb.
Hypothesis supported : verb_of method = Some v.

Local Abbreviation attempt' := (attempt server self endpoint params method tmo max_retries retry_delay).
Local Abbreviation loop' := (request_loop server self endpoint params method tmo max_retries retry_delay).
Local Abbreviation rq_in := (request_of self endpoint params v tmo).

(** The retry logic sleeps and goes on, or ends the turn where it is. *)
Lemma retry_logic_shape retries w0 :
  (retry_logic max_retries retry_delay retries w0
   = (Return (Continue (retries + 1)), after_sleep (retry_delay * 2 ^ retries) w0))
  \/ (snd (retry_logic max_retries retry_delay retries w0) = w0
      /\ forall r', fst (retry_logic max_retries retry_delay retries w0) <> Return (Continue r')).
Proof.
  unfold retry_logic, bind, sleep, after_sleep.
  destruct (retries <? max_retries); [|right; split; [reflexivity | discriminate]].
  destruct (_ <? 0); [right; split; [reflexivity | discriminate] | left; reflexivity].
Qed.

(** So does the [try] block on a response. *)
Lemma handle_response_shape r retries w0 :
  (try_except (handle_response retry_delay r retries) (handlers max_retries retry_delay retries) w0
   = (Return (Continue (retries + 1)), after_sleep (retry_delay * 2 ^ retries) w0))
  \/ (snd (try_except (handle_response retry_delay r retries)
             (handlers max_retries retry_delay retries) w0) = w0
      /\ forall r', fst (try_except (handle_response retry_delay r retries)
                           (handlers max_retries retry_delay retries) w0)
                    <> Return (Continue r')).
Proof.
  unfold try_except, handle_response, bind, response_json, sleep, lift, Py.get, after_sleep.
  destruct (negb (status_code r =? 200)).
  - destruct (negb (String.eqb (text r) "")).
    + destruct (json r) as [info|]; unfold ret, raise, handlers;
        [|right; split; [reflexivity | discriminate]].
      destruct info; unfold ret, raise;
        try (right; split; [reflexivity | discriminate]).
      destruct (Py.lookup "message" items); unfold ret;
        (destruct (_ || _); [|right; split; [reflexivity | discriminate]]);
        (destruct (_ <? 0); [right; split; [reflexivity | discriminate] | left; reflexivity]).
    + unfold ret.
      destruct (Py.lookup "message" _); unfold ret;
        (destruct (_ || _); [|right; split; [reflexivity | discriminate]]);
        (destruct (_ <? 0); [right; split; [reflexivity | discriminate] | left; reflexivity]).
  - destruct (json r); unfold ret, raise, handlers; right; split; (reflexivity || discriminate).
Qed.

(** A turn sends the request; if the loop is to go on it then sleeps the
    delay of the retry, and else does nothing more. *)
Lemma attempt_shape retries w :
  (attempt' retries w
   = (Return (Continue (retries + 1)),
      after_sleep (retry_delay * 2 ^ retries) (after_request (rq_in w) w)))
  \/ (snd (attempt' retries w) = after_request (rq_in w) w
      /\ forall r', fst (attempt' retries w) <> Return (Continue r')).
Proof.
  rewrite (attempt_supported server self endpoint params method tmo max_retries retry_delay v
             retries w supported).
  cbv zeta. destruct (server _ _) as [r| | |].
  - apply handle_response_shape.
  - apply retry_logic_shape.
  - apply retry_logic_shape.
  - right. split; [reflexivity | discriminate].
Qed.

(** The trace of the loop: the request, then a sleep and the request again
    for each retry made; a last sleep without a request after it only when
    the retries are used up. *)
Lemma loop_shape fuel : forall retries w,
  retries <= max_retries ->
  (Z.to_nat (max_retries + 1 - retries) <= fuel)%nat ->
  exists (k : nat) (tail : list Event),
    (k <= Z.to_nat (max_retries - retries))%nat
    /\ trace (snd (loop' fuel retries w))
       = trace w ++ Sent (rq_in w) :: backoff_trace (rq_in w) retry_delay retries k ++ tail
    /\ (tail = []
        \/ (tail = [Slept (retry_delay * 2 ^ max_retries)]
            /\ k = Z.to_nat (max_retries - retries))).
Proof.
  induction fuel as [|fuel IH]; intros retries w Hle Hfuel; [lia|].
  rewrite loop_step by assumption.
  destruct (attempt_shape retries w) as [Hgo|[Hw Hstop]].
  - rewrite Hgo. set (w1 := after_sleep _ (after_request (rq_in w) w)).
    assert (Hw1 : trace w1 = trace w ++ [Sent (rq_in w); Slept (retry_delay * 2 ^ retries)]).
    { unfold w1, after_sleep, after_request, record. cbn [trace]. now rewrite <- app_assoc. }
    destruct (Z.le_gt_cases (retries + 1) max_retries) as [Hmore|Hlast].
    + destruct (IH (retries + 1) w1 Hmore) as (k & tail & Hk & Ht & Htail); [lia|].
      change (rq_in w1) with (rq_in w) in Ht.
      exists (S k), tail. split; [lia|]. split.
      * rewrite Ht, Hw1, <- app_assoc. reflexivity.
      * destruct Htail as [->|[-> ->]]; [left; reflexivity|right]. split; [reflexivity | lia].
    + rewrite loop_done by lia. cbn [snd].
      exists 0%nat, [Slept (retry_delay * 2 ^ max_retries)]. split; [lia|]. split.
      * rewrite Hw1. replace max_retries with retries by lia. reflexivity.
      * right. split; [reflexivity | lia].
  - exists 0%nat, []. split; [lia|]. split; [|left; reflexivity].
    destruct (attempt' retries w) as [[[r'|x]|e|] w']; cbn [fst snd] in *;
      try (subst w'; unfold after_request, record; reflexivity).
    exfalso. apply (Hstop r'). reflexivity.
Qed.

End ShapeFacts.

Lemma requests_backoff_repeat rq d i n : requests (backoff_trace rq d i n) = repeat rq n.
Proof. revert i. induction n as [|n IH]; intros i; [reflexivity|]. cbn. now rewrite IH. Qed.

Lemma sleeps_backoff_delays rq d n : sleeps (backoff_trace rq d 0 n) = backoff_delays d n.
Proof.
  unfold backoff_delays. rewrite sleeps_backoff. apply List.map_ext. intros k. reflexivity.
Qed.

Lemma backoff_delays_succ d n :
  backoff_delays d (S n) = backoff_delays d n ++ [d * 2 ^ Z.of_nat n].
Proof. unfold backoff_delays. rewrite seq_S, List.map_app. reflexivity. Qed.

Section RecoveryFacts.

Variable server : nat -> Request -> Reply.
Variable self : FacebookGraphAPI.
Variable endpoint : string.
Variable params : loc.
Variable method : string.
Variables tmo max_retries retry_delay : Z.
Variable v : Verb.
Hypothesis supported : verb_of method = Some v.
Hypothesis delay_nonneg : 0 <= retry_delay.

Local Abbreviation loop' := (request_loop server self endpoint params method tmo max_retries retry_delay).
Local Abbreviation rq_in := (request_of self endpoint params v tmo).




End RecoveryFacts.

(** ** Further properties of [make_request] *)

(** X1.  [__init__] takes the token it is given unless that is empty or
    missing, and then the one of the settings; it raises [ValueError] exactly
    when both are empty or missing, and the base URL is the one of the
    settings. *)
Theorem init_token_choice :
  forall cfg token,
    let usable t := match t with Some s => negb (String.eqb s "") | None => false end in
    match init cfg token with
    | inr client =>
        base_url client = FACEBOOK_BASE_URL cfg
        /\ access_token client <> ""
        /\ (usable token = true -> token = Some (access_token client))
        /\ (usable token = false -> FACEBOOK_ACCESS_TOKEN cfg = Some (access_token client))
    | inl e =>
        e = ValueError /\ usable token = false /\ usable (FACEBOOK_ACCESS_TOKEN cfg) = false
    end.
Proof.
  intros cfg token usable. unfold init, usable.
  destruct token as [t|]; [destruct (String.eqb_spec t "") as [Et|Et]|]; cbn [negb].
  - destruct (FACEBOOK_ACCESS_TOKEN cfg) as [c|]; [|repeat split].
    destruct (String.eqb_spec c ""); [repeat split|]. cbn [base_url access_token].
    repeat split; try assumption; discriminate.
  - destruct (String.eqb_spec t ""); [contradiction|]. cbn [base_url access_token].
    repeat split; try assumption; discriminate.
  - destruct (FACEBOOK_ACCESS_TOKEN cfg) as [c|]; [|repeat split].
    destruct (String.eqb_spec c ""); [repeat split|]. cbn [base_url access_token].
    repeat split; try assumption; discriminate.
Qed.

(** The trace of a call, whatever the server does. *)
Lemma make_request_shape server self endpoint params method v tmo max_retries retry_delay w :
  verb_of method = Some v ->
  0 <= max_retries ->
  let rq := request_of self endpoint (fst (enter self params w)) v tmo (snd (enter self params w)) in
  exists (k : nat) (tail : list Event),
    (k <= Z.to_nat max_retries)%nat
    /\ trace (snd (make_request server self endpoint params method tmo max_retries retry_delay w))
       = trace w ++ Sent rq :: backoff_trace rq retry_delay 0 k ++ tail
    /\ (tail = [] \/ (tail = [Slept (retry_delay * 2 ^ max_retries)] /\ k = Z.to_nat max_retries)).
Proof.
  intros Hv Hm rq. rewrite make_request_enter.
  destruct (loop_shape server self endpoint (fst (enter self params w)) method tmo max_retries
              retry_delay v Hv (Z.to_nat (max_retries + 1)) 0 (snd (enter self params w)))
    as (k & tail & Hk & Ht & Htail); [lia|lia|].
  exists k, tail. rewrite Z.sub_0_r in Hk, Htail. rewrite trace_enter in Ht.
  split; [exact Hk|]. split; [exact Ht | exact Htail].
Qed.

Lemma payload_has_token self endpoint params v tmo w :
  payload (request_of self endpoint (fst (enter self params w)) v tmo (snd (enter self params w)))
    !! "access_token" = Some (VStr (access_token self)).
Proof.
  unfold request_of, enter. cbn [payload fst snd store].
  rewrite lookup_total_insert_eq. apply lookup_insert_eq.
Qed.

(** X2.  Whatever the server does, the requests of one call are all the same
    request, at most [max_retries + 1] of them and at least one; it goes to
    [base_url/endpoint] and carries the client's access token, whatever token
    the caller's parameters held. *)
Theorem make_request_repeats_one_request :
  forall server self endpoint params method v tmo max_retries retry_delay w,
    verb_of method = Some v ->
    0 <= max_retries ->
    let rq := request_of self endpoint (fst (enter self params w)) v tmo (snd (enter self params w)) in
    let res := make_request server self endpoint params method tmo max_retries retry_delay w in
    exists n : nat,
      sent (snd res) = sent w ++ repeat rq n
      /\ (1 <= n)%nat
      /\ Z.of_nat n <= max_retries + 1
      /\ verb rq = v
      /\ url rq = base_url self +:+ "/" +:+ endpoint
      /\ payload rq !! "access_token" = Some (VStr (access_token self)).
Proof.
  intros server self endpoint params method v tmo max_retries retry_delay w Hv Hm rq res.
  destruct (make_request_shape server self endpoint params method v tmo max_retries retry_delay w
              Hv Hm) as (k & tail & Hk & Ht & Htail).
  fold rq in Ht. fold res in Ht.
  exists (S k). unfold sent. rewrite Ht.
  split; [|split; [lia|split; [lia|split; [reflexivity|split; [reflexivity|apply payload_has_token]]]]].
  rewrite requests_app. cbn [requests]. rewrite requests_app, requests_backoff_repeat.
  destruct Htail as [->|[-> _]]; cbn [requests]; now rewrite app_nil_r.
Qed.

Lemma make_request_repeats_one_request_witness :
  exists n : nat,
    sent (snd (make_request rate_limited_twice example_client "me" None "post" 30 3 5 empty_world))
    = repeat (request_of example_client "me" 1%positive POST 30
                (snd (enter example_client None empty_world))) n
    /\ (1 <= n)%nat /\ Z.of_nat n <= 4.
Proof.
  destruct (make_request_repeats_one_request rate_limited_twice example_client "me" None "post" POST
              30 3 5 empty_world eq_refl ltac:(lia)) as (n & H1 & H2 & H3 & _).
  exists n. split; [exact H1 | split; [exact H2 | exact H3]].
Defined.

(** X3.  Whatever the server does, the sleeps of one call are the first
    delays of the doubling sequence [retry_delay * 2 ^ i], [i = 0, 1, ...]:
    one after each request, but for the last request, which may have none. *)
Theorem make_request_sleeps_double :
  forall server self endpoint params method v tmo max_retries retry_delay w,
    verb_of method = Some v ->
    0 <= max_retries ->
    let res := make_request server self endpoint params method tmo max_retries retry_delay w in
    exists m : nat,
      slept (snd res) = slept w ++ backoff_delays retry_delay m
      /\ Z.of_nat m <= max_retries + 1
      /\ (length (sent (snd res)) = length (sent w) + m
          \/ length (sent (snd res)) = length (sent w) + S m)%nat.
Proof.
  intros server self endpoint params method v tmo max_retries retry_delay w Hv Hm res.
  destruct (make_request_shape server self endpoint params method v tmo max_retries retry_delay w
              Hv Hm) as (k & tail & Hk & Ht & Htail).
  fold res in Ht. unfold slept, sent. rewrite Ht.
  rewrite sleeps_app, requests_app. cbn [sleeps requests].
  rewrite sleeps_app, requests_app, sleeps_backoff_delays, requests_backoff_repeat, !length_app.
  cbn [length]. rewrite length_app, repeat_length.
  destruct Htail as [->|[-> Hlast]]; cbn [sleeps requests length].
  - exists k. rewrite app_nil_r. split; [reflexivity|]. split; [lia|]. right. lia.
  - exists (S k). rewrite backoff_delays_succ. subst k. rewrite Z2Nat.id by lia.
    split; [reflexivity|]. split; [lia|]. left. lia.
Qed.

Lemma make_request_sleeps_double_witness :
  exists m : nat,
    slept (snd (make_request rate_limited_twice example_client "me" None "GET" 30 3 5 empty_world))
    = backoff_delays 5 m /\ Z.of_nat m <= 4.
Proof.
  destruct (make_request_sleeps_double rate_limited_twice example_client "me" None "GET" GET
              30 3 5 empty_world eq_refl ltac:(lia)) as (m & H1 & H2 & _).
  exists m. split; [exact H1 | exact H2].
Defined.

(** X4.  With a negative [max_retries] the loop is not entered:
    [make_request] returns [None] without sending a request, whatever the
    method and the server; the access token is written to the parameters all
    the same. *)
Theorem make_request_negative_retries :
  forall server self endpoint params method tmo max_retries retry_delay w,
    max_retries < 0 ->
    make_request server self endpoint params method tmo max_retries retry_delay w
    = (Return VNone, snd (enter self params w))
    /\ trace (snd (enter self params w)) = trace w
    /\ (store (snd (enter self params w)) !!! fst (enter self params w) : dict) !! "access_token"
       = Some (VStr (access_token self)).
Proof.
  intros server self endpoint params method tmo max_retries retry_delay w Hneg.
  rewrite make_request_enter, loop_done by lia.
  split; [reflexivity|]. split; [apply trace_enter|].
  unfold enter. cbn [fst snd store]. rewrite lookup_total_insert_eq. apply lookup_insert_eq.
Qed.

Lemma make_request_negative_retries_witness :
  fst (make_request accounts_server example_client "me/accounts" None "GET" 30 (-1) 5 empty_world)
  = Return VNone
  /\ sent (snd (make_request accounts_server example_client "me/accounts" None "GET" 30 (-1) 5
                  empty_world)) = [].
Proof.
  destruct (make_request_negative_retries accounts_server example_client "me/accounts" None "GET"
              30 (-1) 5 empty_world ltac:(lia)) as (H1 & H2 & _).
  rewrite H1. cbn [fst snd]. split; [reflexivity|]. unfold sent. rewrite H2. reflexivity.
Defined.





(** X7.  An exception of the request other than a timeout or a connection
    error ends the call at once: [None], after that one request, without a
    sleep, however many retries are left. *)
Theorem make_request_other_exception_not_retried :
  forall server self endpoint params method v tmo max_retries retry_delay w,
    verb_of method = Some v ->
    0 <= max_retries ->
    answers server (length (sent w)) Failed ->
    let rq := request_of self endpoint (fst (enter self params w)) v tmo (snd (enter self params w)) in
    let res := make_request server self endpoint params method tmo max_retries retry_delay w in
    fst res = Return VNone /\ trace (snd res) = trace w ++ [Sent rq].
Proof.
  intros server self endpoint params method v tmo max_retries retry_delay w Hv Hm Hsrv rq res.
  unfold res. rewrite make_request_enter.
  destruct (fuel_positive max_retries Hm) as [fuel ->].
  rewrite loop_step by lia.
  rewrite (attempt_supported _ _ _ _ _ _ _ _ v 0 _ Hv). cbv zeta.
  rewrite sent_enter, Hsrv. cbn [fst snd]. split; [reflexivity|].
  unfold after_request, record. cbn [trace]. now rewrite trace_enter.
Qed.

Lemma make_request_other_exception_not_retried_witness :
  let res := make_request (fun _ _ => Failed) example_client "me" None "GET" 30 3 5 empty_world in
  fst res = Return VNone /\ length (sent (snd res)) = 1%nat /\ slept (snd res) = [].
Proof.
  pose proof (make_request_other_exception_not_retried (fun _ _ => Failed) example_client "me" None
                "GET" GET 30 3 5 empty_world eq_refl ltac:(lia) (fun _ => eq_refl)) as H.
  cbv zeta in H. destruct H as (H1 & H2).
  split; [exact H1|]. unfold sent, slept. rewrite H2. split; reflexivity.
Defined.

(** ** Further properties of [get_paginated_results] *)

Section PaginationShape.

Variable server : nat -> Request -> Reply.
Variable cfg : Config.
Variable self : FacebookGraphAPI.
Variable results_key : string.

Local Abbreviation fetch := (fun endpoint params =>
  make_request server self endpoint (Some params) "GET"
    (REQUEST_TIMEOUT cfg) (MAX_RETRIES cfg) (RETRY_DELAY cfg)).
Local Abbreviation pages_loop := (pagination_loop server cfg self results_key).

Lemma make_request_frame endpoint params method tmo max_retries retry_delay w :
  exists t,
    trace (snd (make_request server self endpoint params method tmo max_retries retry_delay w))
    = trace w ++ t.
Proof.
  rewrite make_request_enter.
  destruct (loop_frame server self endpoint (fst (enter self params w)) method tmo max_retries
              retry_delay (Z.to_nat (max_retries + 1)) 0 (snd (enter self params w)))
    as (t & Ht & _).
  exists t. rewrite Ht, trace_enter. reflexivity.
Qed.

(** The pagination loop only adds to the trace. *)
Lemma pagination_frame fuel : forall endpoint params all_results cursor w,
  exists t, trace (snd (pages_loop fuel endpoint params all_results cursor w)) = trace w ++ t.
Proof.
  induction fuel as [|fuel IH]; intros endpoint params all_results cursor w.
  - exists []. now rewrite app_nil_r.
  - rewrite pagination_step.
    destruct (follow_cursor_frame self cursor endpoint params w) as [Hf _].
    destruct (follow_cursor self cursor endpoint params w) as [[target|e|] w1]; cbn [snd] in Hf;
      try (exists []; cbn [snd]; now rewrite app_nil_r).
    destruct (make_request_frame (fst target) (Some (snd target)) "GET" (REQUEST_TIMEOUT cfg)
                (MAX_RETRIES cfg) (RETRY_DELAY cfg) w1) as (t & Ht).
    rewrite Hf in Ht.
    destruct (fetch (fst target) (snd target) w1) as [[response|e|] w2]; cbn [snd] in Ht;
      try (exists t; exact Ht).
    destruct (digest results_key all_results response) as [e|[results|results next]];
      try (exists t; exact Ht).
    destruct (IH (fst target) (snd target) results next w2) as (t' & Ht').
    exists (t ++ t'). rewrite Ht', Ht, app_assoc. reflexivity.
Qed.






End PaginationShape.





Section CursorFacts.

Variable server : nat -> Request -> Reply.
Variable cfg : Config.
Variable self : FacebookGraphAPI.
Variable results_key : string.

Local Abbreviation fetch := (fun endpoint params =>
  make_request server self endpoint (Some params) "GET"
    (REQUEST_TIMEOUT cfg) (MAX_RETRIES cfg) (RETRY_DELAY cfg)).
Local Abbreviation pages_loop := (pagination_loop server cfg self results_key).

(** A query string that parses fills the dictionary as [query_dict] says. *)
Lemma parse_params_store fields : forall params w,
  forallb (fun param => Nat.eqb (length (PyStr.split "=" param)) 2) fields = true ->
  store (snd (parse_params fields params w)) !!! params = query_dict fields (store w !!! params).
Proof.
  induction fields as [|param fields IH]; intros params w H; cbn [parse_params]; [reflexivity|].
  cbn [forallb] in H. apply andb_prop in H as [H1 H2].
  unfold query_dict. cbn [fold_left].
  destruct (PyStr.split "=" param) as [|key [|x [|? ?]]]; try discriminate.
  unfold bind, dict_set.
  match goal with |- context [parse_params fields params ?w1] =>
    pose proof (IH params w1 H2) as Hs; pose proof (parse_params_ok fields params w1 H2) as Hok;
    destruct (parse_params fields params w1) as [o w2] end.
  cbn [fst snd store] in *. subst o. cbn [snd]. rewrite Hs, lookup_total_insert_eq. reflexivity.
Qed.

(** Following a cursor with a query string: a new dictionary, holding what
    the query string says and nothing else. *)
Lemma follow_cursor_query u endpoint' query rest endpoint params w :
  u <> "" ->
  PyStr.split "?" (PyStr.replace (base_url self +:+ "/") "" u) = endpoint' :: query :: rest ->
  query_ok query = true ->
  exists l w1,
    follow_cursor self (VStr u) endpoint params w = (Return (endpoint', l), w1)
    /\ trace w1 = trace w
    /\ store w1 !!! l = query_dict (PyStr.split "&" query) ∅.
Proof.
  intros Hu Hsplit Hq. unfold follow_cursor. cbn [Py.truthy].
  destruct (String.eqb_spec u ""); [contradiction|]. cbn [negb]. rewrite Hsplit.
  unfold bind, new_dict.
  set (l := fresh (dom (store w))).
  set (w0 := {| trace := trace w; store := <[l := ∅]> (store w) |}).
  pose proof (parse_params_store (PyStr.split "&" query) l w0 Hq) as Hs.
  pose proof (parse_params_ok (PyStr.split "&" query) l w0 Hq) as Hok.
  destruct (parse_params_frame (PyStr.split "&" query) l w0) as [Ht _].
  destruct (parse_params (PyStr.split "&" query) l w0) as [o w1].
  cbn [fst snd] in *. subst o. exists l, w1. split; [reflexivity|]. split; [exact Ht|].
  rewrite Hs. unfold w0. cbn [store]. now rewrite lookup_total_insert_eq.
Qed.

(** A turn whose cursor could be followed goes on from where its fetch ends. *)
Lemma pagination_after_fetch fuel endpoint params all_results cursor w target w1 :
  follow_cursor self cursor endpoint params w = (Return target, w1) ->
  exists t,
    trace (snd (pages_loop (S fuel) endpoint params all_results cursor w))
    = trace (snd (fetch (fst target) (snd target) w1)) ++ t.
Proof.
  intros Hf. rewrite pagination_step, Hf.
  destruct (fetch (fst target) (snd target) w1) as [[response|e|] w2]; cbn [snd];
    try (exists []; now rewrite app_nil_r).
  destruct (digest results_key all_results response) as [e|[results|results next]]; cbn [snd];
    try (exists []; now rewrite app_nil_r).
  apply pagination_frame.
Qed.

(** The first thing a fetch does is to send its request. *)
Lemma fetch_sends endpoint params w :
  0 <= MAX_RETRIES cfg ->
  exists t,
    trace (snd (fetch endpoint params w))
    = trace w ++ Sent {| verb := GET; url := base_url self +:+ "/" +:+ endpoint;
                         payload := <["access_token" := VStr (access_token self)]>
                                      (store w !!! params);
                         timeout := REQUEST_TIMEOUT cfg |} :: t.
Proof.
  intros Hm.
  destruct (make_request_shape server self endpoint (Some params) "GET" GET (REQUEST_TIMEOUT cfg)
              (MAX_RETRIES cfg) (RETRY_DELAY cfg) w eq_refl Hm) as (k & tail & _ & Ht & _).
  eexists. rewrite Ht. unfold request_of, enter. cbn [fst snd store].
  rewrite lookup_total_insert_eq. reflexivity.
Qed.

(** A server that always has a next page keeps the loop going. *)
Lemma loop_never_ends :
  0 <= MAX_RETRIES cfg ->
  (forall n, exists page, serves server n page /\ page_with_cursor self results_key page = true) ->
  forall fuel endpoint params all_results cursor w,
    usable_cursor self cursor = true ->
    fst (pages_loop fuel endpoint params all_results cursor w) = Diverge
    /\ length (sent (snd (pages_loop fuel endpoint params all_results cursor w)))
       = (length (sent w) + fuel)%nat.
Proof.
  intros Hm Hsrv. induction fuel as [|fuel IH]; intros endpoint params all_results cursor w Hcur.
  - cbn [pagination_loop fst snd diverge]. split; [reflexivity | lia].
  - rewrite pagination_step.
    destruct (follow_cursor_ok self cursor endpoint params w Hcur) as [target Htarget].
    destruct (follow_cursor_frame self cursor endpoint params w) as [Htrace _].
    destruct (follow_cursor self cursor endpoint params w) as [o w1].
    cbn [fst snd] in Htarget, Htrace. subst o.
    assert (Hsent1 : sent w1 = sent w) by (unfold sent; now rewrite Htrace).
    destruct (Hsrv (length (sent w1))) as (page & Hpage & Hshape).
    destruct (fetch_page server cfg self (fst target) (snd target) page w1 Hm Hpage)
      as (w2 & Hf & Hsent2 & _).
    rewrite Hf. unfold page_with_cursor in Hshape.
    apply andb_prop in Hshape as [Hshape Hnext]. apply andb_prop in Hshape as [Hrec Hpaging].
    apply bool_decide_eq_true in Hrec as [records Hrec].
    destruct (next_cursor page) as [next|] eqn:Hn; [|discriminate].
    rewrite (digest_more results_key all_results page records next Hrec Hpaging Hn).
    destruct (IH (fst target) (snd target) (all_results ++ records) next w2 Hnext) as [Hd Hl].
    split; [exact Hd|]. rewrite Hl, Hsent2, Hsent1. lia.
Qed.


End CursorFacts.

(** X10.  The request for a next page is built from the cursor alone: it goes
    to the path of the cursor URL (what is left of it once the base URL is
    taken off) and carries the fields of its query string and the access
    token.  The endpoint and the parameters of the caller, the page size among
    them, are in it only if the cursor URL has them. *)
Theorem next_page_request_comes_from_cursor :
  forall server cfg self results_key fuel endpoint params all_results u endpoint' query rest w,
    0 <= MAX_RETRIES cfg ->
    u <> "" ->
    PyStr.split "?" (PyStr.replace (base_url self +:+ "/") "" u) = endpoint' :: query :: rest ->
    query_ok query = true ->
    let rq := {| verb := GET; url := base_url self +:+ "/" +:+ endpoint';
                 payload := <["access_token" := VStr (access_token self)]>
                              (query_dict (PyStr.split "&" query) ∅);
                 timeout := REQUEST_TIMEOUT cfg |} in
    exists t,
      trace (snd (pagination_loop server cfg self results_key (S fuel) endpoint params all_results
                    (VStr u) w))
      = trace w ++ Sent rq :: t.
Proof.
  intros server cfg self results_key fuel endpoint params all_results u endpoint' query rest w
    Hm Hu Hsplit Hq rq.
  destruct (follow_cursor_query self u endpoint' query rest endpoint params w Hu Hsplit Hq)
    as (l & w1 & Hf & Ht & Hs).
  destruct (pagination_after_fetch server cfg self results_key fuel endpoint params all_results
              (VStr u) w (endpoint', l) w1 Hf) as (t & Hloop).
  destruct (fetch_sends server cfg self endpoint' l w1 Hm) as (t' & Hfetch).
  cbn [fst snd] in Hloop. rewrite Hloop, Hfetch, Ht, Hs.
  exists (t' ++ t). rewrite <- app_assoc. reflexivity.
Qed.

Lemma next_page_request_comes_from_cursor_witness :
  let res := get_paginated_results accounts_server default_config example_client "data"
               "me/accounts" None 100 2 empty_world in
  List.map (fun rq => (url rq, map_to_list (payload rq))) (sent (snd res))
  = [("https://graph.facebook.com/v18.0/me/accounts",
      [("access_token", VStr "EAAB"); ("limit", VInt 100)]);
     ("https://graph.facebook.com/v18.0/me/accounts",
      [("access_token", VStr "EAAB"); ("after", VStr "X")])]
  /\ exists t,
       trace (snd (pagination_loop accounts_server default_config example_client "data" 1
                     "me/accounts" 1%positive []
                     (VStr "https://graph.facebook.com/v18.0/me/accounts?after=X") caller_world))
       = Sent {| verb := GET; url := "https://graph.facebook.com/v18.0/me/accounts";
                 payload := <["access_token" := VStr "EAAB"]> (<["after" := VStr "X"]> ∅);
                 timeout := 30 |} :: t.
Proof.
  split; [vm_compute; reflexivity|].
  exact (next_page_request_comes_from_cursor accounts_server default_config example_client "data"
           0 "me/accounts" 1%positive [] "https://graph.facebook.com/v18.0/me/accounts?after=X"
           "me/accounts" "after=X" [] caller_world
           ltac:(vm_compute; discriminate) ltac:(discriminate) eq_refl eq_refl).
Defined.

(** X11.  [get_paginated_results] has no bound of its own on the number of
    pages: against a server whose every page holds a usable next cursor it
    never returns; whatever the fuel, the loop is still running when the fuel
    is used up, one request sent for each unit of it. *)
Theorem get_paginated_results_has_no_page_limit :
  forall server cfg self results_key endpoint params limit,
    0 <= MAX_RETRIES cfg ->
    (forall n, exists page, serves server n page /\ page_with_cursor self results_key page = true) ->
    forall fuel w,
      let res := get_paginated_results server cfg self results_key endpoint params limit fuel w in
      fst res = Diverge /\ length (sent (snd res)) = (length (sent w) + fuel)%nat.
Proof.
  intros server cfg self results_key endpoint params limit Hm Hsrv fuel w res.
  unfold res. rewrite get_paginated_results_enter.
  destruct (loop_never_ends server cfg self results_key Hm Hsrv fuel endpoint
              (fst (enter_pages params limit w)) [] VNone (snd (enter_pages params limit w))
              eq_refl) as [Hd Hl].
  split; [exact Hd|]. rewrite Hl. unfold sent. now rewrite trace_enter_pages.
Qed.

Lemma get_paginated_results_has_no_page_limit_witness :
  let res := get_paginated_results
               (fun _ _ => Responded (ok_response "{'data': [...], 'paging': {...}}" looping_page))
               default_config example_client "data" "me/accounts" None 100 50 empty_world in
  fst res = Diverge /\ length (sent (snd res)) = 50%nat.
Proof.
  pose proof (get_paginated_results_has_no_page_limit
                (fun _ _ => Responded (ok_response "{'data': [...], 'paging': {...}}" looping_page))
                default_config example_client "data" "me/accounts" None 100
                ltac:(vm_compute; discriminate)) as H.
  apply (H ltac:(intros n; exists looping_page; split;
                 [eexists; repeat split; reflexivity | vm_compute; reflexivity]) 50%nat empty_world).
Defined.



(** X13.  The first request of [get_paginated_results] goes to
    [base_url/endpoint] with the caller's parameters, in which the page size
    is under [limit] and the client's token under [access_token], replacing
    what the caller had under these keys. *)
Theorem first_page_request :
  forall server cfg self results_key endpoint limit fuel (p : loc) (d : dict) w,
    0 <= MAX_RETRIES cfg ->
    store w !! p = Some d ->
    let rq := {| verb := GET; url := base_url self +:+ "/" +:+ endpoint;
                 payload := <["access_token" := VStr (access_token self)]>
                              (<["limit" := VInt limit]> d);
                 timeout := REQUEST_TIMEOUT cfg |} in
    exists t,
      trace (snd (get_paginated_results server cfg self results_key endpoint (Some p) limit
                    (S fuel) w))
      = trace w ++ Sent rq :: t.
Proof.
  intros server cfg self results_key endpoint limit fuel p d w Hm Hp rq.
  rewrite get_paginated_results_enter.
  set (w0 := snd (enter_pages (Some p) limit w)).
  destruct (pagination_after_fetch server cfg self results_key fuel endpoint p [] VNone w0
              (endpoint, p) w0 eq_refl) as (t & Hloop).
  destruct (fetch_sends server cfg self endpoint p w0 Hm) as (t' & Hfetch).
  change (fst (enter_pages (Some p) limit w)) with p.
  cbn [fst snd] in Hloop. rewrite Hloop, Hfetch.
  exists (t' ++ t). rewrite <- app_assoc.
  unfold w0, enter_pages. cbn [fst snd trace store].
  rewrite lookup_total_insert_eq, (lookup_total_correct _ _ _ Hp). reflexivity.
Qed.

Lemma first_page_request_witness :
  exists t,
    trace (snd (get_paginated_results accounts_server default_config example_client "data"
                  "me/accounts" (Some 1%positive) 25 1 tokened_world))
    = Sent {| verb := GET; url := "https://graph.facebook.com/v18.0/me/accounts";
              payload := <["access_token" := VStr "EAAB"]>
                           (<["limit" := VInt 25]> {[ "access_token" := VStr "caller-token" ]});
              timeout := 30 |} :: t.
Proof.
  exact (first_page_request accounts_server default_config example_client "data" "me/accounts"
           25 0 1%positive {[ "access_token" := VStr "caller-token" ]} tokened_world
           ltac:(vm_compute; discriminate) eq_refl).
Defined.

(** ** Properties of the accounts (models/models_account.py) *)

Lemma lookup_put items key v k :
  Py.lookup k (Account.put items key v)
  = if String.eqb key k then Some v else Py.lookup k items.
Proof.
  induction items as [|[k0 x] items IH]; cbn [Account.put Py.lookup].
  - destruct (String.eqb key k); reflexivity.
  - destruct (String.eqb_spec k0 key) as [->|Hne]; cbn [Py.lookup].
    + destruct (String.eqb key k); reflexivity.
    + rewrite IH. destruct (String.eqb_spec k0 k) as [->|Hne']; [|reflexivity].
      destruct (String.eqb_spec key k); [congruence | reflexivity].
Qed.

Lemma lookup_puts extra : forall items k,
  Py.lookup k (fold_left (fun items kv => Account.put items (fst kv) (snd kv)) extra items)
  = match Py.lookup k (rev extra) with
    | Some v => Some v
    | None => Py.lookup k items
    end.
Proof.
  induction extra as [|[key v] extra IH] using rev_ind; intros items k; [reflexivity|].
  rewrite fold_left_app, rev_app_distr. cbn [fold_left rev app fst snd Py.lookup].
  rewrite lookup_put, IH. destruct (String.eqb key k); reflexivity.
Qed.

Lemma lookup_in_nodup items : forall k v,
  List.NoDup (List.map fst items) -> In (k, v) items -> Py.lookup k items = Some v.
Proof.
  induction items as [|[k0 x] items IH]; intros k v Hnd Hin; [destruct Hin|].
  cbn [List.map fst] in Hnd. apply List.NoDup_cons_iff in Hnd as [Hfresh Hnd].
  cbn [Py.lookup]. destruct Hin as [[= -> ->]|Hin].
  - now rewrite String.eqb_refl.
  - destruct (String.eqb_spec k0 k) as [->|Hne]; [|apply IH; assumption].
    exfalso. apply Hfresh. apply in_map_iff. exists (k, v). split; [reflexivity | assumption].
Qed.

Lemma lookup_not_in items : forall k, ~ In k (List.map fst items) -> Py.lookup k items = None.
Proof.
  induction items as [|[k0 x] items IH]; intros k Hk; [reflexivity|].
  cbn [Py.lookup]. destruct (String.eqb_spec k0 k) as [->|Hne].
  - exfalso. apply Hk. left. reflexivity.
  - apply IH. intros Hin. apply Hk. right. exact Hin.
Qed.

(** X14.  [to_dict] gives every extra keyword of an account under its key,
    also when the key is [id], [name], [account_type] or [category]: the
    keyword then replaces the field.  The four fields are there under their
    names unless a keyword replaces them. *)
Theorem to_dict_keywords_win :
  forall a : Account.SocialMediaAccount,
    List.NoDup (List.map fst (Account.additional_data a)) ->
    (forall k v, In (k, v) (Account.additional_data a) ->
       Py.lookup k (Account.to_dict a) = Some v)
    /\ (forall k, ~ In k (List.map fst (Account.additional_data a)) ->
          Py.lookup k (Account.to_dict a)
          = Py.lookup k [("id", Account.id a); ("name", Account.name a);
                         ("account_type", VStr (Account.account_type a));
                         ("category", Account.category a)]).
Proof.
  intros a Hnd. unfold Account.to_dict. split.
  - intros k v Hin. rewrite lookup_puts.
    rewrite (lookup_in_nodup (rev (Account.additional_data a)) k v); [reflexivity| |].
    + rewrite List.map_rev. apply List.NoDup_rev. exact Hnd.
    + apply in_rev. rewrite rev_involutive. exact Hin.
  - intros k Hk. rewrite lookup_puts, lookup_not_in; [reflexivity|].
    rewrite List.map_rev. intros Hin. apply Hk. apply in_rev. exact Hin.
Qed.

Lemma to_dict_keywords_win_witness :
  let a := Account.FacebookPage (VStr "1") (VStr "Page") VNone
             [("access_token", VStr "PAGE-TOKEN"); ("id", VStr "2")] in
  Py.lookup "access_token" (Account.to_dict a) = Some (VStr "PAGE-TOKEN")
  /\ Py.lookup "id" (Account.to_dict a) = Some (VStr "2")
  /\ Py.lookup "name" (Account.to_dict a) = Some (VStr "Page").
Proof.
  destruct (to_dict_keywords_win
              (Account.FacebookPage (VStr "1") (VStr "Page") VNone
                 [("access_token", VStr "PAGE-TOKEN"); ("id", VStr "2")])) as [H1 H2].
  - cbn. repeat constructor; cbn; intuition discriminate.
  - cbv zeta. split; [|split].
    + apply H1. left. reflexivity.
    + apply H1. right. left. reflexivity.
    + rewrite H2; [reflexivity|]. cbn. intuition discriminate.
Defined.

Lemma add_accounts_spec accounts : forall c,
  match Account.add_accounts c accounts with
  | inr c' =>
      Account.facebook_pages c'
      = Account.facebook_pages c ++ List.filter (Account.has_class FacebookPageClass) accounts
      /\ Account.instagram_accounts c'
         = Account.instagram_accounts c
           ++ List.filter (Account.has_class InstagramAccountClass) accounts
      /\ Account.ad_accounts c'
         = Account.ad_accounts c ++ List.filter (Account.has_class AdAccountClass) accounts
      /\ List.filter (Account.has_class SocialMediaAccountClass) accounts = []
  | inl e =>
      e = ValueError /\ List.filter (Account.has_class SocialMediaAccountClass) accounts <> []
  end.
Proof.
  induction accounts as [|a accounts IH]; intros c; cbn [Account.add_accounts List.filter].
  - rewrite !app_nil_r. repeat split.
  - unfold Account.add_account, Account.has_class.
    destruct (Account.class_of a);
      try (match goal with |- context [Account.add_accounts ?c1 accounts] =>
             specialize (IH c1); destruct (Account.add_accounts c1 accounts) as [e|c'] end;
           cbn [Account.facebook_pages Account.instagram_accounts Account.ad_accounts] in IH;
           [exact IH|];
           destruct IH as (H1 & H2 & H3 & H4); rewrite H1, H2, H3, <- ?app_assoc;
           repeat split; exact H4).
    split; [reflexivity | discriminate].
Qed.

(** X15.  Accounts added one after another to an empty collection come out
    of [get_all_accounts] grouped by kind: the Facebook pages, then the
    Instagram accounts, then the ad accounts, each group in the order of
    adding.  An account that is none of the three makes [add_account] raise
    [ValueError]. *)
Theorem get_all_accounts_groups_by_kind :
  forall accounts : list Account.SocialMediaAccount,
    match Account.add_accounts Account.empty accounts with
    | inr c =>
        Account.get_all_accounts c
        = List.filter (Account.has_class FacebookPageClass) accounts
          ++ List.filter (Account.has_class InstagramAccountClass) accounts
          ++ List.filter (Account.has_class AdAccountClass) accounts
        /\ length (Account.get_all_accounts c) = length accounts
    | inl e =>
        e = ValueError
        /\ exists a, In a accounts /\ Account.class_of a = SocialMediaAccountClass
    end.
Proof.
  intros accounts. pose proof (add_accounts_spec accounts Account.empty) as H.
  destruct (Account.add_accounts Account.empty accounts) as [e|c].
  - destruct H as [-> Hbase]. split; [reflexivity|].
    destruct (List.filter (Account.has_class SocialMediaAccountClass) accounts) as [|a rest] eqn:Hf;
      [contradiction|].
    assert (Hin : In a (List.filter (Account.has_class SocialMediaAccountClass) accounts))
      by (rewrite Hf; left; reflexivity).
    apply filter_In in Hin as [Hin Hcls]. exists a. split; [exact Hin|].
    unfold Account.has_class in Hcls. destruct (Account.class_of a); (reflexivity || discriminate).
  - destruct H as (H1 & H2 & H3 & H4). unfold Account.get_all_accounts.
    rewrite H1, H2, H3. cbn [Account.empty Account.facebook_pages Account.instagram_accounts
                            Account.ad_accounts app].
    split; [reflexivity|]. rewrite !length_app.
    clear -H4. induction accounts as [|a accounts IH]; [reflexivity|].
    cbn [List.filter] in *. unfold Account.has_class in *.
    destruct (Account.class_of a); cbn [length] in *; try discriminate;
      specialize (IH H4); lia.
Qed.

Lemma first_with_id_spec account_id accounts :
  match Account.first_with_id account_id accounts with
  | Some a =>
      exists before after,
        accounts = before ++ a :: after
        /\ Account.id a = VStr account_id
        /\ Forall (fun b => Account.id b <> VStr account_id) before
  | None => Forall (fun b => Account.id b <> VStr account_id) accounts
  end.
Proof.
  induction accounts as [|b accounts IH]; cbn [Account.first_with_id]; [constructor|].
  destruct (Py.is_str account_id (Account.id b)) eqn:Hb.
  - exists [], accounts. split; [reflexivity|]. split; [|constructor].
    unfold Py.is_str in Hb. destruct (Account.id b); try discriminate.
    apply String.eqb_eq in Hb. now subst.
  - assert (Hne : Account.id b <> VStr account_id).
    { intros E. rewrite E in Hb. cbn in Hb. now rewrite String.eqb_refl in Hb. }
    destruct (Account.first_with_id account_id accounts) as [a|].
    + destruct IH as (before & after & -> & Hid & Hbefore).
      exists (b :: before), after. split; [reflexivity|]. split; [exact Hid|].
      constructor; assumption.
    + constructor; assumption.
Qed.

(** X16.  [find_by_id] returns the first account with the id in the order of
    [get_all_accounts] (pages before Instagram accounts before ad accounts),
    and [None] exactly when no account has the id.  So an account is found
    under its id once it is added, though not that very account when an
    earlier one has the same id. *)
Theorem find_by_id_first_match :
  forall (c : Account.AccountCollection) (account_id : string),
    match Account.find_by_id c account_id with
    | Some a =>
        exists before after,
          Account.get_all_accounts c = before ++ a :: after
          /\ Account.id a = VStr account_id
          /\ Forall (fun b => Account.id b <> VStr account_id) before
    | None =>
        Forall (fun b => Account.id b <> VStr account_id) (Account.get_all_accounts c)
    end.
Proof. intros c account_id. apply first_with_id_spec. Qed.

(** X17.  After [add_account] of an account whose id is the string
    [account_id], [find_by_id] finds an account with that id. *)
Theorem find_by_id_after_add :
  forall (c c' : Account.AccountCollection) (a : Account.SocialMediaAccount) (account_id : string),
    Account.add_account c a = inr c' ->
    Account.id a = VStr account_id ->
    exists b, Account.find_by_id c' account_id = Some b /\ Account.id b = VStr account_id.
Proof.
  intros c c' a account_id Hadd Hid.
  pose proof (find_by_id_first_match c' account_id) as H.
  destruct (Account.find_by_id c' account_id) as [b|].
  - destruct H as (_ & _ & _ & Hb & _). exists b. split; [reflexivity | exact Hb].
  - exfalso. rewrite List.Forall_forall in H. apply (H a); [|exact Hid].
    unfold Account.add_account in Hadd. unfold Account.get_all_accounts.
    destruct (Account.class_of a); try discriminate; injection Hadd as <-;
      cbn [Account.facebook_pages Account.instagram_accounts Account.ad_accounts];
      rewrite !in_app_iff; cbn [In]; auto.
Qed.

Lemma find_by_id_after_add_witness :
  exists b,
    Account.find_by_id
      {| Account.facebook_pages := [Account.FacebookPage (VStr "7") (VStr "Page") VNone []];
         Account.instagram_accounts := [Account.InstagramAccount (VStr "7") (VStr "insta") VNone []];
         Account.ad_accounts := [] |} "7" = Some b
    /\ Account.id b = VStr "7".
Proof.
  exact (find_by_id_after_add
           {| Account.facebook_pages := [Account.FacebookPage (VStr "7") (VStr "Page") VNone []];
              Account.instagram_accounts := []; Account.ad_accounts := [] |}
           _ (Account.InstagramAccount (VStr "7") (VStr "insta") VNone []) "7" eq_refl eq_refl).
Defined.

(** ** Properties of [get_connected_accounts] (services/analytics_service.py) *)

Section ServiceFacts.

Variable server : nat -> Request -> Reply.
Variable cfg : Config.
Variable api : FacebookGraphAPI.

Local Abbreviation request' := (request server cfg api).
Local Abbreviation add_pages' := (add_pages server cfg api).

Lemma add_pages_step account_data elems accounts w :
  add_pages' (account_data :: elems) accounts w =
    match account_data with
    | VDict _ =>
        let accounts1 :=
          {| Account.facebook_pages := Account.facebook_pages accounts ++ [page_from account_data];
             Account.instagram_accounts := Account.instagram_accounts accounts;
             Account.ad_accounts := Account.ad_accounts accounts |} in
        match request' (Py.str (field account_data "id") +:+ "/instagram_accounts") w with
        | (Return insta_response, w1) =>
            match with_instagram accounts1 insta_response with
            | inr accounts2 => add_pages' elems accounts2 w1
            | inl e => (Raise (Builtin e), w1)
            end
        | (Raise e, w1) => (Raise e, w1)
        | (Diverge, w1) => (Diverge, w1)
        end
    | _ => (Raise (Builtin AttributeError), w)
    end.
Proof.
  destruct account_data as [| | | | | |items]; try reflexivity.
  cbn [add_pages]. unfold page_from, field, page_of, with_instagram, and_then.
  cbn [Py.get]. unfold bind, lift.
  repeat match goal with
         | |- context [match Py.lookup ?k items with _ => _ end] => destruct (Py.lookup k items)
         end;
    unfold ret; cbn [Account.add_account Account.class_of Account.FacebookPage Account.id];
    destruct (request' _ w) as [[insta_response|e|] w1]; try reflexivity;
    destruct (has_data insta_response) as [e|[|]]; try reflexivity;
    destruct (data_of insta_response) as [e|insta]; try reflexivity;
    destruct (add_instagram_accounts insta _); reflexivity.
Qed.

Lemma add_instagram_accounts_pages elems : forall accounts accounts',
  add_instagram_accounts elems accounts = inr accounts' ->
  Account.facebook_pages accounts' = Account.facebook_pages accounts.
Proof.
  induction elems as [|insta_data elems IH]; intros accounts accounts'; cbn [add_instagram_accounts].
  - intros [= <-]. reflexivity.
  - unfold and_then.
    destruct (Py.get insta_data "id" VNone); [discriminate|].
    destruct (Py.get insta_data "username" _); [discriminate|].
    cbn [Account.add_account Account.InstagramAccount Account.class_of].
    intros H. rewrite (IH _ _ H). reflexivity.
Qed.

Lemma with_instagram_pages accounts insta_response accounts' :
  with_instagram accounts insta_response = inr accounts' ->
  Account.facebook_pages accounts' = Account.facebook_pages accounts.
Proof.
  unfold with_instagram, and_then.
  destruct (has_data insta_response) as [e|[|]]; try discriminate.
  - destruct (data_of insta_response); [discriminate|]. apply add_instagram_accounts_pages.
  - intros [= <-]. reflexivity.
Qed.

Lemma add_ad_accounts_pages elems : forall accounts accounts',
  add_ad_accounts elems accounts = inr accounts' ->
  Account.facebook_pages accounts' = Account.facebook_pages accounts.
Proof.
  induction elems as [|ad_data elems IH]; intros accounts accounts'; cbn [add_ad_accounts].
  - intros [= <-]. reflexivity.
  - unfold and_then.
    destruct (Py.get ad_data "id" VNone); [discriminate|].
    destruct (Py.get ad_data "name" _); [discriminate|].
    cbn [Account.add_account Account.AdAccount Account.class_of].
    intros H. rewrite (IH _ _ H). reflexivity.
Qed.

(** When the loop over the pages returns, it has added the pages of the
    array, in order. *)
Lemma add_pages_pages elems : forall accounts w c w',
  add_pages' elems accounts w = (Return c, w') ->
  Account.facebook_pages c = Account.facebook_pages accounts ++ List.map page_from elems.
Proof.
  induction elems as [|account_data elems IH]; intros accounts w c w'.
  - cbn [add_pages]. unfold ret. intros [= <- _]. now rewrite app_nil_r.
  - rewrite add_pages_step. destruct account_data; try discriminate. cbv zeta.
    destruct (request' _ w) as [[insta_response|e|] w1]; try discriminate.
    destruct (with_instagram _ insta_response) as [e|accounts2] eqn:Hi; [discriminate|].
    intros H. rewrite (IH _ _ _ _ H), (with_instagram_pages _ _ _ Hi).
    cbn [Account.facebook_pages List.map]. now rewrite <- app_assoc.
Qed.

Lemma with_ads_pages accounts response accounts' :
  with_ads accounts response = inr accounts' ->
  Account.facebook_pages accounts' = Account.facebook_pages accounts.
Proof.
  unfold with_ads, and_then.
  destruct (has_data response) as [e|[|]]; try discriminate.
  - destruct (data_of response); [discriminate|]. apply add_ad_accounts_pages.
  - intros [= <-]. reflexivity.
Qed.

Lemma get_connected_accounts_step w :
  get_connected_accounts server cfg api w =
    match request' "me/accounts" w with
    | (Return user_response, w1) =>
        match has_data user_response with
        | inr true =>
            match data_of user_response with
            | inr pages =>
                match add_pages' pages Account.empty w1 with
                | (Return accounts, w2) =>
                    match request' "me/adaccounts" w2 with
                    | (Return ad_accounts_response, w3) =>
                        match with_ads accounts ad_accounts_response with
                        | inr c => (Return c, w3)
                        | inl e => (Raise (Builtin e), w3)
                        end
                    | (Raise e, w3) => (Raise e, w3)
                    | (Diverge, w3) => (Diverge, w3)
                    end
                | (Raise e, w2) => (Raise e, w2)
                | (Diverge, w2) => (Diverge, w2)
                end
            | inl e => (Raise (Builtin e), w1)
            end
        | inr false => (Return Account.empty, w1)
        | inl e => (Raise (Builtin e), w1)
        end
    | (Raise e, w1) => (Raise e, w1)
    | (Diverge, w1) => (Diverge, w1)
    end.
Proof.
  unfold get_connected_accounts. cbv zeta. unfold bind at 1.
  destruct (request' "me/accounts" w) as [[user_response|e|] w1]; try reflexivity.
  unfold bind at 1. unfold lift at 1.
  destruct (has_data user_response) as [e|[|]]; try reflexivity. cbn [negb ret].
  unfold bind at 1. unfold lift at 1.
  destruct (data_of user_response) as [e|pages]; try reflexivity. unfold ret at 1.
  unfold bind at 1.
  destruct (add_pages' pages Account.empty w1) as [[accounts|e|] w2]; try reflexivity.
  unfold bind at 1.
  destruct (request' "me/adaccounts" w2) as [[ads|e|] w3]; try reflexivity.
  unfold with_ads, and_then, bind, lift.
  destruct (has_data ads) as [e|[|]]; try reflexivity. unfold ret at 1.
  destruct (data_of ads) as [e|elems]; try reflexivity. unfold ret at 1.
  destruct (add_ad_accounts elems accounts); reflexivity.
Qed.

Hypothesis retries_nonneg : 0 <= MAX_RETRIES cfg.

(** Against a server that always answers with status 200, a request is one
    request on the wire. *)
Lemma request_once endpoint w :
  always_ok server ->
  exists payload w1,
    request' endpoint w = (Return payload, w1)
    /\ List.map url (sent w1) = List.map url (sent w) ++ [base_url api +:+ "/" +:+ endpoint].
Proof.
  intros Hok. unfold request. rewrite make_request_enter.
  destruct (fuel_positive (MAX_RETRIES cfg) retries_nonneg) as [fuel ->].
  set (p := fst (enter api None w)). set (w0 := snd (enter api None w)).
  destruct (Hok (length (sent w0)) (request_of api endpoint p GET (REQUEST_TIMEOUT cfg) w0))
    as (r & payload & Hr & Hs & Hj).
  rewrite (loop_success server api endpoint p "GET" (REQUEST_TIMEOUT cfg) (MAX_RETRIES cfg)
             (RETRY_DELAY cfg) GET eq_refl r payload); [|lia|assumption..].
  eexists. eexists. split; [reflexivity|].
  rewrite sent_after_request, List.map_app. unfold w0. rewrite sent_enter. reflexivity.
Qed.

(** One request a page, for its Instagram accounts. *)
Lemma add_pages_urls elems : forall accounts w c w',
  always_ok server ->
  add_pages' elems accounts w = (Return c, w') ->
  List.map url (sent w') = List.map url (sent w) ++ List.map (instagram_url api) elems.
Proof.
  induction elems as [|account_data elems IH]; intros accounts w c w' Hok.
  - cbn [add_pages]. unfold ret. intros [= _ <-]. now rewrite app_nil_r.
  - rewrite add_pages_step. destruct account_data; try discriminate. cbv zeta.
    match goal with |- context [request' ?e w] =>
      destruct (request_once e w Hok) as (payload & w1 & -> & Hurl) end.
    destruct (with_instagram _ payload) as [e|accounts2]; [discriminate|].
    intros H. rewrite (IH _ _ _ _ Hok H), Hurl. cbn [List.map].
    rewrite <- app_assoc. reflexivity.
Qed.

End ServiceFacts.



(** X19.  When [get_connected_accounts] gets a [data] array for the pages and
    returns, the Facebook pages of the collection are the elements of the
    array, in order, each with its [id], [name] and [category] and its page
    access token among the additional data. *)
Theorem get_connected_accounts_pages :
  forall server cfg api w items pages c,
    0 <= MAX_RETRIES cfg ->
    serves server (length (sent w)) (VDict items) ->
    Py.lookup "data" items = Some (VList pages) ->
    fst (get_connected_accounts server cfg api w) = Return c ->
    Account.facebook_pages c = List.map page_from pages.
Proof.
  intros server cfg api w items pages c Hm (r & Hsrv & Hs & Hj) Hdata.
  rewrite get_connected_accounts_step. unfold request at 1. rewrite make_request_enter.
  destruct (fuel_positive (MAX_RETRIES cfg) Hm) as [fuel ->].
  rewrite (loop_success server api "me/accounts" _ "GET" (REQUEST_TIMEOUT cfg) (MAX_RETRIES cfg)
             (RETRY_DELAY cfg) GET eq_refl r (VDict items));
    [|lia|rewrite sent_enter; apply Hsrv|assumption..].
  unfold has_data, Py.contains, data_of, and_then, Py.get.
  rewrite (lookup_truthy _ _ _ Hdata), Hdata. cbn [bool_decide decide_rel Py.iterate].
  match goal with |- context [add_pages server cfg api pages Account.empty ?w1] =>
    pose proof (add_pages_pages server cfg api pages Account.empty w1) as Hpages;
    destruct (add_pages server cfg api pages Account.empty w1) as [[accounts|e|] w2] end;
    try discriminate.
  specialize (Hpages accounts w2 eq_refl). cbn [Account.empty Account.facebook_pages app] in Hpages.
  destruct (request server cfg api "me/adaccounts" w2) as [[ads|e|] w3]; try discriminate.
  destruct (with_ads accounts ads) as [e|c'] eqn:Hads; [discriminate|].
  cbn [fst]. intros [= <-]. rewrite (with_ads_pages _ _ _ Hads). exact Hpages.
Qed.

Lemma get_connected_accounts_pages_witness :
  exists c,
    fst (get_connected_accounts one_page_server default_config example_client empty_world)
    = Return c
    /\ Account.facebook_pages c
       = [page_of (VStr "7") (VStr "Shop") VNone (VStr "PT")].
Proof.
  eexists. split; [vm_compute; reflexivity|].
  apply (get_connected_accounts_pages one_page_server default_config example_client empty_world
           [("data", VList [VDict [("id", VStr "7"); ("name", VStr "Shop");
                                   ("access_token", VStr "PT")]]);
            ("paging", VDict [("next", VStr "https://graph.facebook.com/v18.0/me/accounts?after=X")])]
           [VDict [("id", VStr "7"); ("name", VStr "Shop"); ("access_token", VStr "PT")]]);
    [vm_compute; discriminate | eexists; repeat split; reflexivity | reflexivity
    | vm_compute; reflexivity].
Defined.

(** X20.  [get_connected_accounts] reads one response of each listing and no
    more: against a server that answers every request with status 200, a call
    that returns has sent one request for the pages, one for the Instagram
    accounts of each page of the [data] array, in order, and one for the ad
    accounts.  A next cursor in a response is not followed. *)
Theorem get_connected_accounts_one_request_per_listing :
  forall server cfg api w items pages c,
    0 <= MAX_RETRIES cfg ->
    always_ok server ->
    serves server (length (sent w)) (VDict items) ->
    Py.lookup "data" items = Some (VList pages) ->
    let res := get_connected_accounts server cfg api w in
    fst res = Return c ->
    List.map url (sent (snd res))
    = List.map url (sent w)
      ++ (base_url api +:+ "/" +:+ "me/accounts")
         :: List.map (instagram_url api) pages
      ++ [base_url api +:+ "/" +:+ "me/adaccounts"].
Proof.
  intros server cfg api w items pages c Hm Hok (r & Hsrv & Hs & Hj) Hdata res. unfold res.
  remember (get_connected_accounts server cfg api w) as out eqn:Hout.
  rewrite get_connected_accounts_step in Hout. unfold request at 1 in Hout.
  rewrite make_request_enter in Hout.
  destruct (fuel_positive (MAX_RETRIES cfg) Hm) as [fuel Hfuel]. rewrite Hfuel in Hout.
  rewrite (loop_success server api "me/accounts" _ "GET" (REQUEST_TIMEOUT cfg) (MAX_RETRIES cfg)
             (RETRY_DELAY cfg) GET eq_refl r (VDict items)) in Hout;
    [|lia|rewrite sent_enter; apply Hsrv|assumption..].
  unfold has_data, Py.contains, data_of, and_then, Py.get in Hout.
  rewrite (lookup_truthy _ _ _ Hdata), Hdata in Hout.
  rewrite bool_decide_eq_true_2 in Hout by (eexists; reflexivity).
  cbn [Py.iterate] in Hout.
  set (w1 := after_request _ _) in Hout.
  assert (Hw1 : List.map url (sent w1)
                = List.map url (sent w) ++ [base_url api +:+ "/" +:+ "me/accounts"]).
  { unfold w1. rewrite sent_after_request, List.map_app, sent_enter. reflexivity. }
  pose proof (add_pages_urls server cfg api Hm pages Account.empty w1) as Hpages.
  destruct (add_pages server cfg api pages Account.empty w1) as [[accounts|e|] w2];
    try (subst out; discriminate).
  specialize (Hpages accounts w2 Hok eq_refl).
  destruct (request_once server cfg api Hm "me/adaccounts" w2 Hok) as (ads & w3 & Hads & Hw3).
  rewrite Hads in Hout.
  destruct (with_ads accounts ads) as [e|c']; subst out; [discriminate|].
  cbn [fst snd]. intros _. rewrite Hw3, Hpages, Hw1, <- !app_assoc. reflexivity.
Qed.

Lemma get_connected_accounts_one_request_per_listing_witness :
  List.map url (sent (snd (get_connected_accounts one_page_server default_config example_client
                             empty_world)))
  = ["https://graph.facebook.com/v18.0/me/accounts";
     "https://graph.facebook.com/v18.0/7/instagram_accounts";
     "https://graph.facebook.com/v18.0/me/adaccounts"].
Proof.
  refine (get_connected_accounts_one_request_per_listing one_page_server default_config
            example_client empty_world
            [("data", VList [VDict [("id", VStr "7"); ("name", VStr "Shop");
                                    ("access_token", VStr "PT")]]);
             ("paging", VDict [("next", VStr "https://graph.facebook.com/v18.0/me/accounts?after=X")])]
            [VDict [("id", VStr "7"); ("name", VStr "Shop"); ("access_token", VStr "PT")]]
            _ _ _ _ eq_refl _).
  - vm_compute. discriminate.
  - intros [|[|n]] rq; eexists; eexists; repeat split; reflexivity.
  - eexists. repeat split; reflexivity.
  - vm_compute. reflexivity.
Defined.

(** ** Properties of the consolidated metrics (models/models_insights.py) *)

Lemma sum_where_snoc keep l a :
  Consolidated.sum_where keep (l ++ [a])
  = if keep a then Consolidated.plus (Consolidated.sum_where keep l) (Consolidated.numbers a)
    else Consolidated.sum_where keep l.
Proof. unfold Consolidated.sum_where. rewrite fold_left_app. reflexivity. Qed.

(** X21.  [add_account_data] keeps the totals in step with the list of
    accounts: the Facebook totals are the sums over the accounts of type
    "Facebook Page", the Instagram totals the sums over all the others,
    whatever their type says; the new account goes to the end of the list. *)
Theorem add_account_data_keeps_totals :
  forall m account_id account_name account_type v r l f,
    Consolidated.balanced m ->
    let m' := Consolidated.add_account_data m account_id account_name account_type v r l f in
    Consolidated.balanced m'
    /\ length (Consolidated.accounts m') = S (length (Consolidated.accounts m))
    /\ (account_type <> "Facebook Page" ->
        Consolidated.facebook m' = Consolidated.facebook m
        /\ Consolidated.views (Consolidated.instagram m')
           = Consolidated.views (Consolidated.instagram m) + v).
Proof.
  intros m account_id account_name account_type v r l f [Hfb Hig] m'.
  unfold m', Consolidated.add_account_data, Consolidated.balanced.
  destruct (String.eqb_spec account_type "Facebook Page") as [->|Hne];
    cbn [Consolidated.facebook Consolidated.instagram Consolidated.accounts];
    rewrite !sum_where_snoc; unfold Consolidated.is_page; cbn [Consolidated.type].
  - rewrite String.eqb_refl. cbn [negb]. rewrite Hfb, Hig, length_app. cbn [length].
    repeat split; try lia. all: contradiction.
  - destruct (String.eqb_spec account_type "Facebook Page"); [contradiction|]. cbn [negb].
    rewrite Hfb, Hig, length_app. cbn [length]. repeat split; lia.
Qed.

Lemma add_account_data_keeps_totals_witness :
  let m := Consolidated.add_account_data
             (Consolidated.add_account_data Consolidated.empty (VStr "1") (VStr "Page")
                "Facebook Page" 10 5 2 1)
             (VStr "act_1") (VStr "Ads") "Ad Account" 7 0 0 0 in
  Consolidated.balanced m
  /\ Consolidated.views (Consolidated.facebook m) = 10
  /\ Consolidated.views (Consolidated.instagram m) = 7.
Proof.
  assert (H0 : Consolidated.balanced Consolidated.empty) by (split; reflexivity).
  destruct (add_account_data_keeps_totals Consolidated.empty (VStr "1") (VStr "Page")
              "Facebook Page" 10 5 2 1 H0) as (H1 & _).
  destruct (add_account_data_keeps_totals _ (VStr "act_1") (VStr "Ads") "Ad Account" 7 0 0 0 H1)
    as (H2 & _).
  split; [exact H2 | split; reflexivity].
Defined.

(** ** Failures in the middle of a listing, and negative delays *)

Section Truncation.

Variable server : nat -> Request -> Reply.
Variable cfg : Config.
Variable self : FacebookGraphAPI.
Variable results_key : string.

Local Abbreviation fetch := (fun endpoint params =>
  make_request server self endpoint (Some params) "GET"
    (REQUEST_TIMEOUT cfg) (MAX_RETRIES cfg) (RETRY_DELAY cfg)).
Local Abbreviation pages_loop := (pagination_loop server cfg self results_key).

(** A fetch that meets such a reply returns [None] after its one request. *)
Lemma fetch_gives_up endpoint params reply w :
  0 <= MAX_RETRIES cfg ->
  answers server (length (sent w)) reply ->
  gives_up reply = true ->
  exists w2,
    fetch endpoint params w = (Return VNone, w2)
    /\ length (sent w2) = S (length (sent w))
    /\ slept w2 = slept w.
Proof.
  intros Hm Hsrv Hg. cbv beta.
  rewrite make_request_enter.
  destruct (fuel_positive (MAX_RETRIES cfg) Hm) as [fuel ->].
  assert (Hafter : forall rq,
            length (sent (after_request rq (snd (enter self (Some params) w)))) = S (length (sent w))
            /\ slept (after_request rq (snd (enter self (Some params) w))) = slept w).
  { intros rq. rewrite sent_after_request, length_app, sent_enter. cbn [length]. split; [lia|].
    unfold slept, after_request, record. cbn [trace]. rewrite sleeps_app, trace_enter.
    cbn [sleeps]. apply app_nil_r. }
  destruct reply as [r| | |]; try discriminate.
  - unfold gives_up in Hg. apply orb_prop in Hg as [Hg|Hg].
    + apply andb_prop in Hg as [Hg Hlim]. apply andb_prop in Hg as [H200 H429].
      apply negb_true_iff in Hlim, H200, H429.
      apply Z.eqb_neq in H200, H429.
      eexists. split; [|apply Hafter].
      apply (loop_permanent server self endpoint _ "GET" _ _ _ GET eq_refl r); try assumption.
      rewrite sent_enter. apply Hsrv.
    + apply andb_prop in Hg as [Hj Hc].
      destruct (json r) eqn:Ej; [discriminate|].
      eexists. split; [|apply Hafter].
      apply (loop_malformed server self endpoint _ "GET" _ _ _ GET eq_refl r); try assumption;
        [rewrite sent_enter; apply Hsrv |].
      apply orb_prop in Hc as [Hc|Hc]; [left; now apply Z.eqb_eq in Hc|].
      right. apply negb_true_iff in Hc. intros E. rewrite E in Hc. discriminate.
  - eexists. split; [|apply Hafter].
    rewrite loop_step by lia.
    rewrite (attempt_supported server self endpoint _ "GET" _ _ _ GET 0 _ eq_refl). cbv zeta.
    rewrite sent_enter, Hsrv. reflexivity.
Qed.

(** Pages with a next cursor, then a reply that ends the fetch: the loop
    returns what it has gathered. *)
Lemma loop_truncated reply pages : forall fuel endpoint params all_results cursor w,
  0 <= MAX_RETRIES cfg ->
  Forall (fun page => page_with_cursor self results_key page = true) pages ->
  usable_cursor self cursor = true ->
  (forall i page, pages !! i = Some page -> serves server (length (sent w) + i) page) ->
  answers server (length (sent w) + length pages) reply ->
  gives_up reply = true ->
  (length pages < fuel)%nat ->
  exists w',
    pages_loop fuel endpoint params all_results cursor w
    = (Return (all_results ++ concat (List.map (records_of results_key) pages)), w')
    /\ length (sent w') = S (length (sent w) + length pages)
    /\ slept w' = slept w.
Proof.
  induction pages as [|page rest IH]; intros fuel endpoint params all_results cursor w
    Hm Hpages Hcur Hsrv Hend Hg Hfuel;
    (destruct fuel as [|fuel]; [cbn [length] in Hfuel; lia|]);
    rewrite pagination_step;
    destruct (follow_cursor_ok self cursor endpoint params w Hcur) as [target Htarget];
    destruct (follow_cursor_frame self cursor endpoint params w) as [Htrace _];
    destruct (follow_cursor self cursor endpoint params w) as [o w1];
    cbn [fst snd] in Htarget, Htrace; subst o;
    assert (Hsent1 : sent w1 = sent w) by (unfold sent; now rewrite Htrace);
    assert (Hslept1 : slept w1 = slept w) by (unfold slept; now rewrite Htrace).
  - destruct (fetch_gives_up (fst target) (snd target) reply w1 Hm) as (w2 & Hf & Hsent2 & Hslept2);
      [rewrite Hsent1; cbn [length] in Hend; now rewrite Nat.add_0_r in Hend | assumption |].
    rewrite Hf, digest_falsy by reflexivity.
    exists w2. cbn [List.map concat length]. rewrite app_nil_r, Nat.add_0_r.
    split; [reflexivity|]. split; congruence.
  - destruct (fetch_page server cfg self (fst target) (snd target) page w1 Hm)
      as (w2 & Hf & Hsent2 & Hslept2).
    { rewrite Hsent1. replace (length (sent w)) with (length (sent w) + 0)%nat by lia.
      apply Hsrv. reflexivity. }
    rewrite Hf. rewrite Hsent1 in Hsent2. rewrite Hslept1 in Hslept2.
    apply Forall_cons in Hpages as [Hshape Hrest].
    unfold page_with_cursor in Hshape.
    apply andb_prop in Hshape as [Hshape Hnext]. apply andb_prop in Hshape as [Hrec Hpaging].
    apply bool_decide_eq_true in Hrec as [records Hrec].
    assert (Hrecords : records_of results_key page = records)
      by (unfold records_of; rewrite Hrec; reflexivity).
    destruct (next_cursor page) as [next|] eqn:Hn; [|discriminate].
    rewrite (digest_more results_key all_results page records next Hrec Hpaging Hn).
    destruct (IH fuel (fst target) (snd target) (all_results ++ records) next w2 Hm Hrest Hnext)
      as (w' & Hloop & Hsent' & Hslept').
    + intros i p Hp. replace (length (sent w2) + i)%nat with (length (sent w) + S i)%nat by lia.
      apply Hsrv. exact Hp.
    + replace (length (sent w2) + length rest)%nat
        with (length (sent w) + length (page :: rest))%nat by (cbn [length]; lia).
      exact Hend.
    + exact Hg.
    + cbn [length] in Hfuel. lia.
    + exists w'. rewrite Hloop. cbn [List.map concat]. rewrite Hrecords, <- app_assoc.
      split; [reflexivity|]. split; [cbn [length] in *; lia | congruence].
Qed.

End Truncation.

(** X22.  A listing that breaks off is returned as if it were complete: when
    some pages were fetched, each with a next cursor, and the fetch of the
    page after them ends without a result (a server error, a body that does
    not decode, an exception of the request), [get_paginated_results] returns
    the records of the pages it has, and raises nothing. *)
Theorem get_paginated_results_truncates_silently :
  forall server cfg self results_key endpoint params limit pages reply fuel w,
    0 <= MAX_RETRIES cfg ->
    Forall (fun page => page_with_cursor self results_key page = true) pages ->
    (forall i page, pages !! i = Some page -> serves server (length (sent w) + i) page) ->
    answers server (length (sent w) + length pages) reply ->
    gives_up reply = true ->
    (length pages < fuel)%nat ->
    let res := get_paginated_results server cfg self results_key endpoint params limit fuel w in
    fst res = Return (concat (List.map (records_of results_key) pages))
    /\ length (sent (snd res)) = S (length (sent w) + length pages)
    /\ slept (snd res) = slept w.
Proof.
  intros server cfg self results_key endpoint params limit pages reply fuel w
    Hm Hpages Hsrv Hend Hg Hfuel res.
  unfold res. rewrite get_paginated_results_enter.
  assert (Hsent : sent (snd (enter_pages params limit w)) = sent w)
    by (unfold sent; now rewrite trace_enter_pages).
  assert (Hslept : slept (snd (enter_pages params limit w)) = slept w)
    by (unfold slept; now rewrite trace_enter_pages).
  destruct (loop_truncated server cfg self results_key reply pages fuel endpoint
              (fst (enter_pages params limit w)) [] VNone (snd (enter_pages params limit w)))
    as (w' & Hloop & Hs & Hz); try assumption; try reflexivity.
  - now rewrite Hsent.
  - now rewrite Hsent.
  - rewrite Hloop. cbn [fst snd app]. rewrite Hs, Hz, Hsent, Hslept. repeat split.
Qed.

Lemma get_paginated_results_truncates_silently_witness :
  let res := get_paginated_results truncating_server default_config example_client "data"
               "me/accounts" None 100 2 empty_world in
  fst res = Return [VDict [("id", VStr "1")]]
  /\ length (sent (snd res)) = 2%nat.
Proof.
  pose proof (get_paginated_results_truncates_silently truncating_server default_config
                example_client "data" "me/accounts" None 100 [accounts_page_1] Failed 2
                empty_world) as H.
  cbv zeta in H.
  destruct H as (Hr & Hs & _).
  - vm_compute. discriminate.
  - repeat constructor.
  - intros [|i] page Hp; [|destruct i; discriminate Hp].
    injection Hp as <-. eexists. split; [intros rq; reflexivity|]. split; reflexivity.
  - intros rq. reflexivity.
  - reflexivity.
  - cbn [length]. lia.
  - split; [exact Hr | exact Hs].
Defined.


